(** * The simulation controller of the COVID-19 social-dilemma model

    A shallow embedding of [model.py]: the aggregate queries over the
    schedule and over the grid, [MainModel.__init__] and [MainModel.step];
    and of the portrayal function [draw] of [server.py].

    Python floats are IEEE binary64 numbers and are embedded as Rocq's
    primitive floats; Python ints are embedded as [Z] (or [nat] where the
    code can only produce a count).  Agents are objects shared between the
    grid and the schedule, so the model keeps one object store and both
    containers hold references into it. *)

From Stdlib Require Import ZArith Floats Uint63 Lia.
From stdpp Require Import gmap strings list.

(* Decimal literals denote the nearest binary64 value, as in Python. *)
Set Warnings "-inexact-float".

(** ** Python values, exceptions and results *)

Inductive Exception :=
  | ZeroDivisionError
  | UnboundLocalError
  | IndexError
  | KeyError (key : string)
  | ValueError (msg : string)
  | TypeError (msg : string)
  | OtherException (msg : string).

Inductive Res (A : Type) :=
  | Return (a : A)
  | Raise (e : Exception).
Arguments Return {A} a.
Arguments Raise {A} e.

#[global] Instance Res_ret : MRet Res := @Return.
#[global] Instance Res_bind : MBind Res := fun A B f r =>
  match r with
  | Return a => f a
  | Raise e => Raise e
  end.

(** [try: body  except Exception: return dflt]. Every exception of the
    embedding is a subclass of Python's [Exception]. *)
Definition try_except {A} (body : Res A) (dflt : A) : Res A :=
  match body with
  | Return a => Return a
  | Raise _ => Return dflt
  end.

Definition is_Return {A} (r : Res A) : bool :=
  match r with Return _ => true | Raise _ => false end.

(** A Python number: an [int] or a [float]. *)
Inductive PyNum :=
  | PyInt (z : Z)
  | PyFloat (x : float).

(** [float(z)]; exact for |z| below 2^53, which bounds every count on a
    grid that fits in memory. *)
Definition float_of_Z (z : Z) : float :=
  match z with
  | Z0 => 0%float
  | Zpos _ => PrimFloat.of_uint63 (Uint63.of_Z z)
  | Zneg p => PrimFloat.opp (PrimFloat.of_uint63 (Uint63.of_Z (Zpos p)))
  end.

Definition to_float (v : PyNum) : float :=
  match v with
  | PyInt z => float_of_Z z
  | PyFloat x => x
  end.

(** [a + b] *)
Definition py_add (a b : PyNum) : PyNum :=
  match a, b with
  | PyInt x, PyInt y => PyInt (x + y)
  | _, _ => PyFloat (to_float a + to_float b)
  end.

Definition py_is_zero (v : PyNum) : bool :=
  match v with
  | PyInt z => Z.eqb z 0
  | PyFloat x => PrimFloat.eqb x 0%float
  end.

(** [a / b]: true division, which raises on a zero divisor whatever the
    operand types.  On two ints Python rounds the exact quotient once;
    that is the quotient of the two floats when both ints are below 2^53. *)
Definition py_truediv (a b : PyNum) : Res PyNum :=
  if py_is_zero b then Raise ZeroDivisionError
  else Return (PyFloat (to_float a / to_float b)).

(** [a > b] *)
Definition py_gt (a b : PyNum) : bool :=
  match a, b with
  | PyInt x, PyInt y => Z.ltb y x
  | _, _ => PrimFloat.ltb (to_float b) (to_float a)
  end.

(** [sum(l)]: left to right from the int [0]. *)
Definition py_sum (l : list PyNum) : PyNum := fold_left py_add l (PyInt 0).

(** [d[k]] on a dict with string keys. *)
Definition getitem {V} (d : gmap string V) (k : string) : Res V :=
  match d !! k with
  | Some v => Return v
  | None => Raise (KeyError k)
  end.

(** [l[-1]] *)
Definition getitem_last {A} (l : list A) : Res A :=
  match last l with
  | Some x => Return x
  | None => Raise IndexError
  end.

(** Reading a local variable that a [for] loop binds: unbound when the
    loop body never ran. *)
Definition local_var {A} (v : option A) : Res A :=
  match v with
  | Some x => Return x
  | None => Raise UnboundLocalError
  end.

(** [[a for a in l if p(a)]] where the condition may raise. *)
Fixpoint filterM {A} (p : A -> Res bool) (l : list A) : Res (list A) :=
  match l with
  | [] => Return []
  | a :: l' =>
      b ← p a;
      rest ← filterM p l';
      Return (if b : bool then a :: rest else rest)
  end.

(** [for x in l: acc = body(acc, x)] where the body may raise. *)
Fixpoint foldM {A S} (body : S -> A -> Res S) (acc : S) (l : list A) : Res S :=
  match l with
  | [] => Return acc
  | a :: l' => acc' ← body acc a; foldM body acc' l'
  end.

(** [enumerate(l)] *)
Definition enumerate {A} (l : list A) : list (nat * A) := imap pair l.

(** ** Infection and quarantine states *)

Inductive InfectionState := CLEAN | INFECTED | RECOVERED | DEAD.

Inductive QuarantineState := QUARANTINE | FREE.

#[global] Instance InfectionState_eq_dec : EqDecision InfectionState.
Proof. solve_decision. Defined.

#[global] Instance QuarantineState_eq_dec : EqDecision QuarantineState.
Proof. solve_decision. Defined.

(** ** Agents

    [agent.py] is not among the sources; the record holds the attributes
    that [model.py] reads or writes, and the two that mesa's [Agent] gives
    every agent ([unique_id], [pos]). *)

Record MainAgent := mkMainAgent {
  unique_id : nat;
  pos : nat * nat;
  infectionstate : InfectionState;
  quarantinestate : QuarantineState;
  infected_time : nat;
  aspiration : float;
  action_prob : gmap string float;
  action_done : list string
}.

(** The three assignments of [__init__] that seed an infection:
    [agent.infectionstate = INFECTED; agent.quarantinestate = FREE;
     agent.infected_time = self.schedule.time]. *)
Definition seed_infection (now : nat) (a : MainAgent) : MainAgent :=
  {| unique_id := unique_id a;
     pos := pos a;
     infectionstate := INFECTED;
     quarantinestate := FREE;
     infected_time := now;
     aspiration := aspiration a;
     action_prob := action_prob a;
     action_done := action_done a |}.

Definition set_pos (p : nat * nat) (a : MainAgent) : MainAgent :=
  {| unique_id := unique_id a;
     pos := p;
     infectionstate := infectionstate a;
     quarantinestate := quarantinestate a;
     infected_time := infected_time a;
     aspiration := aspiration a;
     action_prob := action_prob a;
     action_done := action_done a |}.

(** ** The collaborating objects of mesa *)

(** A pseudo-random source, seen as the sequence of uniform variates it
    will deliver and how many have been consumed. *)
Record Random := mkRandom {
  variates : nat -> float;
  consumed : nat
}.

(** [rng.random()] *)
Definition random_random (g : Random) : float * Random :=
  (variates g (consumed g), mkRandom (variates g) (S (consumed g))).

(** [SingleGrid]: [cells[x][y]] holds a reference to an agent or [None]. *)
Record SingleGrid := mkSingleGrid {
  torus : bool;
  cells : list (list (option nat))
}.

(** [SingleGrid(width, height, torus)]; [range] of a non-positive int is
    empty. *)
Definition SingleGrid_new (width height : Z) (t : bool) : SingleGrid :=
  mkSingleGrid t (replicate (Z.to_nat width) (replicate (Z.to_nat height) None)).

(** [grid.coord_iter()]: the triples (content, x, y), x outermost. *)
Definition coord_iter (g : SingleGrid) : list (option nat * nat * nat) :=
  concat (imap (fun x col => imap (fun y c => (c, x, y)) col) (cells g)).

(** [RandomActivation]: the references of [_agents] in insertion order,
    and the two counters. *)
Record RandomActivation := mkRandomActivation {
  sched_agents : list nat;
  steps : nat;
  time : nat
}.

(** [schedule.add(agent)] *)
Definition schedule_add (r : nat) (s : RandomActivation) : RandomActivation :=
  mkRandomActivation (sched_agents s ++ [r]) (steps s) (time s).

(** One row of the agent table of the [DataCollector]. *)
Record AgentRecord := mkAgentRecord {
  rec_step : nat;
  rec_unique_id : nat;
  rec_QuarantineState : QuarantineState;
  rec_InfectionState : InfectionState
}.

Record DataCollector := mkDataCollector {
  model_vars : list (string * list PyNum);
  agent_records : list (nat * list AgentRecord)
}.

(** ** The model object *)

Record MainModel := mkMainModel {
  population_density : float;
  death_rate : float;
  width : Z;
  height : Z;
  transfer_rate : float;
  initial_infection_rate : float;
  recovery_days : Z;
  dead_agents_number : nat;
  government_action_threshold : float;
  government_stringent : float;
  lockdown : bool;
  quarantine_prob : float;
  habituation : float;
  learning_rate : float;
  global_aspiration : float;
  action_count : nat;
  action_infection_prob : gmap string float;
  step_counter : nat;
  dilemma_list : list PyNum;
  stay_in_list : list PyNum;
  stay_out_list : list PyNum;
  steps_list : list PyNum;
  aspiration_list : list PyNum;
  infection_list : list PyNum;
  grid : SingleGrid;
  schedule : RandomActivation;
  total_population : nat;
  running : bool;
  datacollector : DataCollector;
  random : Random;
  (* the agent objects, by reference; the grid and the schedule share them *)
  agents : gmap nat MainAgent
}.

(** [self.step_counter = n] *)
Definition set_step_counter (n : nat) (m : MainModel) : MainModel :=
  mkMainModel (population_density m) (death_rate m) (width m) (height m)
    (transfer_rate m) (initial_infection_rate m) (recovery_days m)
    (dead_agents_number m) (government_action_threshold m)
    (government_stringent m) (lockdown m) (quarantine_prob m) (habituation m)
    (learning_rate m) (global_aspiration m) (action_count m)
    (action_infection_prob m) n (dilemma_list m) (stay_in_list m)
    (stay_out_list m) (steps_list m) (aspiration_list m) (infection_list m)
    (grid m) (schedule m) (total_population m) (running m) (datacollector m)
    (random m) (agents m).

(** [self.lockdown = b] *)
Definition set_lockdown (b : bool) (m : MainModel) : MainModel :=
  mkMainModel (population_density m) (death_rate m) (width m) (height m)
    (transfer_rate m) (initial_infection_rate m) (recovery_days m)
    (dead_agents_number m) (government_action_threshold m)
    (government_stringent m) b (quarantine_prob m) (habituation m)
    (learning_rate m) (global_aspiration m) (action_count m)
    (action_infection_prob m) (step_counter m) (dilemma_list m)
    (stay_in_list m) (stay_out_list m) (steps_list m) (aspiration_list m)
    (infection_list m) (grid m) (schedule m) (total_population m) (running m)
    (datacollector m) (random m) (agents m).

(** [self.running = b] *)
Definition set_running (b : bool) (m : MainModel) : MainModel :=
  mkMainModel (population_density m) (death_rate m) (width m) (height m)
    (transfer_rate m) (initial_infection_rate m) (recovery_days m)
    (dead_agents_number m) (government_action_threshold m)
    (government_stringent m) (lockdown m) (quarantine_prob m) (habituation m)
    (learning_rate m) (global_aspiration m) (action_count m)
    (action_infection_prob m) (step_counter m) (dilemma_list m)
    (stay_in_list m) (stay_out_list m) (steps_list m) (aspiration_list m)
    (infection_list m) (grid m) (schedule m) (total_population m) b
    (datacollector m) (random m) (agents m).

(** The collector is mutated in place; the embedding stores its new value. *)
Definition set_datacollector (dc : DataCollector) (m : MainModel) : MainModel :=
  mkMainModel (population_density m) (death_rate m) (width m) (height m)
    (transfer_rate m) (initial_infection_rate m) (recovery_days m)
    (dead_agents_number m) (government_action_threshold m)
    (government_stringent m) (lockdown m) (quarantine_prob m) (habituation m)
    (learning_rate m) (global_aspiration m) (action_count m)
    (action_infection_prob m) (step_counter m) (dilemma_list m)
    (stay_in_list m) (stay_out_list m) (steps_list m) (aspiration_list m)
    (infection_list m) (grid m) (schedule m) (total_population m) (running m)
    dc (random m) (agents m).

(** Likewise for the scheduler, whose counters its [step] advances. *)
Definition set_schedule (s : RandomActivation) (m : MainModel) : MainModel :=
  mkMainModel (population_density m) (death_rate m) (width m) (height m)
    (transfer_rate m) (initial_infection_rate m) (recovery_days m)
    (dead_agents_number m) (government_action_threshold m)
    (government_stringent m) (lockdown m) (quarantine_prob m) (habituation m)
    (learning_rate m) (global_aspiration m) (action_count m)
    (action_infection_prob m) (step_counter m) (dilemma_list m)
    (stay_in_list m) (stay_out_list m) (steps_list m) (aspiration_list m)
    (infection_list m) (grid m) s (total_population m) (running m)
    (datacollector m) (random m) (agents m).

(** [model.schedule.agents]: the scheduled agent objects, in insertion
    order.  A reference always denotes a live object in Python, so the
    lookup never misses on a state the program can build. *)
Definition schedule_agents (m : MainModel) : list MainAgent :=
  omap (fun r => agents m !! r) (sched_agents (schedule m)).

(** The references held by the grid, in [coord_iter] order. *)
Definition grid_refs (m : MainModel) : list nat :=
  omap (fun c => fst (fst c)) (coord_iter (grid m)).

(** ** Aggregate queries over the schedule (module-level functions) *)

Definition count_state (s : InfectionState) (l : list MainAgent) : nat :=
  length (filter (fun a => infectionstate a = s) l).

Definition get_susceptible_number (model : MainModel) : nat :=
  count_state CLEAN (schedule_agents model).

Definition get_infected_number (model : MainModel) : nat :=
  count_state INFECTED (schedule_agents model).

Definition get_recovered_number (model : MainModel) : nat :=
  count_state RECOVERED (schedule_agents model).

Definition get_dead_number (model : MainModel) : nat :=
  dead_agents_number model.

(** [a.action_done[-1] == 'Stay In'] *)
Definition last_is_stay_in (a : MainAgent) : Res bool :=
  s ← getitem_last (action_done a); Return (bool_decide (s = "Stay In")).

(** [a.action_done[-1] != 'Stay In'] *)
Definition last_is_not_stay_in (a : MainAgent) : Res bool :=
  s ← getitem_last (action_done a); Return (negb (bool_decide (s = "Stay In"))).

Definition get_stay_in (model : MainModel) : Res nat :=
  try_except
    (stay_in_number ← filterM last_is_stay_in (schedule_agents model);
     Return (length stay_in_number))
    0.

Definition get_go_out (model : MainModel) : Res nat :=
  try_except
    (go_out_number ← filterM last_is_not_stay_in (schedule_agents model);
     Return (length go_out_number))
    0.

(** The loop only appends; the sum is returned undivided. *)
Definition get_average_aspiration (model : MainModel) : Res PyNum :=
  '(aspiration_list, _) ←
    foldM (fun '(acc, _) '(i, a) =>
             Return (acc ++ [PyFloat (aspiration a)], Some i))
          ([], None) (enumerate (schedule_agents model));
  Return (py_sum aspiration_list).

(** After the loop [i] is the last index, or unbound. *)
Definition get_average_stay_in (model : MainModel) : Res PyNum :=
  '(stay_in_list, i) ←
    foldM (fun '(acc, _) '(i, a) =>
             p ← getitem (action_prob a) "Stay In";
             Return (acc ++ [PyFloat p], Some i))
          ([], None) (enumerate (schedule_agents model));
  let total := py_sum stay_in_list in
  i ← local_var i;
  py_truediv total (PyInt (Z.of_nat i)).

Definition get_average_go_out (model : MainModel) : Res PyNum :=
  '(go_out_list, i) ←
    foldM (fun '(acc, _) '(i, a) =>
             party ← getitem (action_prob a) "Party";
             help ← getitem (action_prob a) "Help elderly";
             grocery ← getitem (action_prob a) "Buy grocery";
             Return (acc ++ [PyFloat (party + help + grocery)], Some i))
          ([], None) (enumerate (schedule_agents model));
  let total := py_sum go_out_list in
  i ← local_var i;
  py_truediv total (PyInt (Z.of_nat i)).

(** ** Aggregate queries of the model object (methods of [MainModel]) *)

Definition MainModel_get_stay_in_number (self : MainModel) : Res nat :=
  try_except
    (stay_in_list ← filterM last_is_stay_in (schedule_agents self);
     Return (length stay_in_list))
    0.

Definition MainModel_get_stay_out_number (self : MainModel) : Res nat :=
  try_except
    (stay_out_list ← filterM last_is_not_stay_in (schedule_agents self);
     Return (length stay_out_list))
    0.

Definition MainModel_get_avg_aspiration (self : MainModel) : Res PyNum :=
  try_except
    ('(total_aspiration, i) ←
       foldM (fun '(acc, _) '(i, a) =>
                Return (py_add acc (PyFloat (aspiration a)), Some i))
             (PyInt 0, None) (enumerate (schedule_agents self));
     i ← local_var i;
     py_truediv total_aspiration (PyInt (Z.of_nat i)))
    (PyInt 0).

(** One pass over [grid.coord_iter()], counting the occupied cells whose
    agent is in state [s]. *)
Definition count_grid (s : InfectionState) (self : MainModel) : nat :=
  fold_left
    (fun number cell =>
       match fst (fst cell) with
       | None => number
       | Some r =>
           match agents self !! r with
           | Some agent =>
               if decide (infectionstate agent = s) then number + 1 else number
           | None => number
           end
       end)
    (coord_iter (grid self)) 0.

Definition MainModel_get_susceptible_number (self : MainModel) : nat :=
  count_grid CLEAN self.

Definition MainModel_get_infection_number (self : MainModel) : nat :=
  count_grid INFECTED self.

Definition MainModel_get_recovered_number (self : MainModel) : nat :=
  count_grid RECOVERED self.

Definition MainModel_get_dead_number (self : MainModel) : nat :=
  dead_agents_number self.

(** ** The data collector *)

(** The [model_reporters] dict of [__init__], in the order of the literal. *)
Definition model_reporters : list (string * (MainModel -> Res PyNum)) :=
  [ ("Infected", fun m => Return (PyInt (Z.of_nat (get_infected_number m))));
    ("Recovered", fun m => Return (PyInt (Z.of_nat (get_recovered_number m))));
    ("Dead", fun m => Return (PyInt (Z.of_nat (get_dead_number m))));
    ("Stay In", fun m => n ← get_stay_in m; Return (PyInt (Z.of_nat n)));
    ("Go Out", fun m => n ← get_go_out m; Return (PyInt (Z.of_nat n)));
    ("Susceptible", fun m => Return (PyInt (Z.of_nat (get_susceptible_number m))));
    ("Aspiration", get_average_aspiration);
    ("Average Aspiration", get_average_aspiration);
    ("Average Stay In", get_average_stay_in);
    ("Average Get Out", get_average_go_out) ].

(** [DataCollector(model_reporters=..., agent_reporters=...)]: one empty
    column per reporter. *)
Definition DataCollector_new : DataCollector :=
  mkDataCollector (map (fun rep => (fst rep, [])) model_reporters) [].

(** [model_vars[var].append(v)] *)
Definition append_var (var : string) (v : PyNum)
    (vars : list (string * list PyNum)) : list (string * list PyNum) :=
  map (fun col => if String.eqb (fst col) var then (fst col, snd col ++ [v]) else col)
      vars.

(** The reporter loop of [collect]: each reporter is evaluated on the
    model and its value appended; a reporter that raises ends the loop,
    and the columns filled so far stay filled. *)
Fixpoint collect_model_vars (reps : list (string * (MainModel -> Res PyNum)))
    (model : MainModel) (vars : list (string * list PyNum))
    : Res unit * list (string * list PyNum) :=
  match reps with
  | [] => (Return tt, vars)
  | (var, reporter) :: reps' =>
      match reporter model with
      | Return v => collect_model_vars reps' model (append_var var v vars)
      | Raise e => (Raise e, vars)
      end
  end.

(** The agent reporters read ["quarantinestate"] and ["infectionstate"]. *)
Definition record_agents (model : MainModel) : list AgentRecord :=
  map (fun a => mkAgentRecord (steps (schedule model)) (unique_id a)
                  (quarantinestate a) (infectionstate a))
      (schedule_agents model).

(** [datacollector.collect(model)] *)
Definition DataCollector_collect (model : MainModel) (dc : DataCollector)
    : Res unit * DataCollector :=
  match collect_model_vars model_reporters model (model_vars dc) with
  | (Return _, vars) =>
      (Return tt,
       mkDataCollector vars
         (agent_records dc ++ [(steps (schedule model), record_agents model)]))
  | (Raise e, vars) => (Raise e, mkDataCollector vars (agent_records dc))
  end.

(** ** Running code: state and exceptions

    A call runs in a world made of the model object and the state of
    numpy's module-level generator.  A call that raises leaves the world
    as mutated so far. *)

Record World := mkWorld {
  model : MainModel;
  np_random : Random
}.

Definition M (A : Type) : Type := World -> Res A * World.

Definition retM {A} (a : A) : M A := fun w => (Return a, w).

Definition bindM {A B} (c : M A) (k : A -> M B) : M B := fun w =>
  match c w with
  | (Return a, w') => k a w'
  | (Raise e, w') => (Raise e, w')
  end.

Notation "'do' x <- c ; k" := (bindM c (fun x => k))
  (at level 10, x name, c at level 100, k at level 200).
Notation "c ;; k" := (bindM c (fun _ => k))
  (at level 100, k at level 200, right associativity).

Definition get_self : M MainModel := fun w => (Return (model w), w).

Definition update_self (f : MainModel -> MainModel) : M unit := fun w =>
  (Return tt, mkWorld (f (model w)) (np_random w)).

Definition liftR {A} (r : Res A) : M A := fun w => (r, w).

Definition collect : M unit := fun w =>
  let '(r, dc) := DataCollector_collect (model w) (datacollector (model w)) in
  (r, mkWorld (set_datacollector dc (model w)) (np_random w)).

(** ** Constructor arguments *)

Record Args := mkArgs {
  arg_population_density : float;
  arg_death_rate : float;
  arg_transfer_rate : float;
  arg_initial_infection_rate : float;
  arg_width : Z;
  arg_height : Z;
  arg_government_stringent : float;
  arg_government_action_threshold : float;
  arg_global_aspiration : float;
  arg_recovery_days : Z;
  arg_habituation : float;
  arg_learning_rate : float
}.





(** ** Code outside [model.py]

    What [model.py] calls but does not define: the agent class of
    [agent.py], mesa's placement of an agent on the grid, numpy's weighted
    choice, and the scheduler pass that activates every agent. *)

Class Collaborators := {
  (* MainAgent(i, self, (x, y)): builds the agent from its arguments and
     the parameters the model was given *)
  MainAgent_new : nat -> Args -> nat * nat -> MainAgent;
  (* grid.position_agent(agent, (x, y)): the new grid, the position given
     to the agent, and the model's source, from which mesa may draw.  Mesa
     raises here only on a full grid, which the cell loop of __init__
     cannot produce: it places at most one agent per cell it visits. *)
  position_agent :
    SingleGrid -> nat -> nat * nat -> Random -> SingleGrid * (nat * nat) * Random;
  (* np.random.choice([0, 1], p=[p0, p1]) on numpy's global generator *)
  np_random_choice : float -> float -> Random -> Res Z * Random;
  (* schedule.step(): activates every agent once, then advances the
     scheduler's counters *)
  schedule_step : M unit
}.

Section Controller.

Context `{Collaborators}.

(** ** [MainModel.__init__] *)

(** What the cell loop of [__init__] has built so far. *)
Record Building := mkBuilding {
  b_grid : SingleGrid;
  b_schedule : RandomActivation;
  b_agents : gmap nat MainAgent;
  b_i : nat;
  b_random : Random
}.

(** One iteration of [for cell in self.grid.coord_iter()]. *)
Definition init_cell (a : Args) (x y : nat) (b : Building) (np : Random)
    : Res Building * Random :=
  let '(u, rng) := random_random (b_random b) in
  if PrimFloat.ltb u (arg_population_density a) then
    let i := b_i b in
    let agent := MainAgent_new i a (x, y) in
    match np_random_choice (1 - arg_initial_infection_rate a)
            (arg_initial_infection_rate a) np with
    | (Raise e, np') => (Raise e, np')
    | (Return c, np') =>
        let agent :=
          if Z.eqb c 1 then seed_infection (time (b_schedule b)) agent
          else agent in
        let '(g, p, rng') := position_agent (b_grid b) i (x, y) rng in
        (Return (mkBuilding g (schedule_add i (b_schedule b))
                   (<[i := set_pos p agent]> (b_agents b)) (i + 1) rng'),
         np')
    end
  else (Return (mkBuilding (b_grid b) (b_schedule b) (b_agents b) (b_i b) rng), np).

Fixpoint init_cells (a : Args) (coords : list (nat * nat)) (b : Building)
    (np : Random) : Res Building * Random :=
  match coords with
  | [] => (Return b, np)
  | (x, y) :: coords' =>
      match init_cell a x y b np with
      | (Return b', np') => init_cells a coords' b' np'
      | (Raise e, np') => (Raise e, np')
      end
  end.

(** The table [action_infection_prob] of [__init__]. *)
Definition action_infection_prob_table : gmap string float :=
  <["Stay In" := 0.1%float]>
  (<["Party" := 0.7%float]>
  (<["Buy grocery" := 0.5%float]>
  (<["Help elderly" := 0.5%float]> ∅))).

(** The attribute assignments of [__init__], given what the cell loop
    built. *)
Definition init_fields (a : Args) (b : Building) : MainModel :=
  {| population_density := arg_population_density a;
     death_rate := arg_death_rate a;
     width := arg_width a;
     height := arg_height a;
     transfer_rate := arg_transfer_rate a;
     initial_infection_rate := arg_initial_infection_rate a;
     recovery_days := arg_recovery_days a;
     dead_agents_number := 0;
     government_action_threshold := arg_government_action_threshold a;
     government_stringent := arg_government_stringent a;
     lockdown := false;
     quarantine_prob := 0.3%float;
     habituation := arg_habituation a;
     learning_rate := arg_learning_rate a;
     global_aspiration := arg_global_aspiration a;
     action_count := 4;
     action_infection_prob := action_infection_prob_table;
     step_counter := 0;
     dilemma_list := [];
     stay_in_list := [];
     stay_out_list := [];
     steps_list := [];
     aspiration_list := [];
     infection_list := [];
     grid := b_grid b;
     schedule := b_schedule b;
     total_population := b_i b;
     running := true;
     datacollector := DataCollector_new;
     random := b_random b;
     agents := b_agents b |}.

(** [MainModel(population_density, ..., learning_rate)]: [rng] is the
    state of the model's own source ([self.random], which mesa creates
    from the seed before [__init__] runs) and [np] that of numpy's global
    generator.  The result is the model, or the exception that aborted the
    construction, and numpy's generator afterwards. *)
Definition MainModel_init (a : Args) (rng np : Random) : Res MainModel * Random :=
  let grid0 := SingleGrid_new (arg_width a) (arg_height a) true in
  let schedule0 := mkRandomActivation [] 0 0 in
  let coords := map (fun cell => (snd (fst cell), snd cell)) (coord_iter grid0) in
  match init_cells a coords (mkBuilding grid0 schedule0 ∅ 0 rng) np with
  | (Raise e, np') => (Raise e, np')
  | (Return b, np') => (Return (init_fields a b), np')
  end.


(** ** [MainModel.step] *)

Definition step : M unit :=
  update_self (fun self => set_step_counter (step_counter self + 1) self) ;;
  collect ;;
  schedule_step ;;
  (* impose lockdown if the infection number goes above the threshold *)
  do self <- get_self ;
  do ratio <- liftR (py_truediv
                       (PyInt (Z.of_nat (MainModel_get_infection_number self)))
                       (PyInt (Z.of_nat (total_population self)))) ;
  (if py_gt ratio (PyFloat (government_action_threshold self))
   then update_self (set_lockdown true) else retM tt) ;;
  (* if the virus is eradicated, stop the simulation *)
  do self <- get_self ;
  if Nat.eqb (MainModel_get_recovered_number self
              + MainModel_get_dead_number self
              + MainModel_get_susceptible_number self)
             (total_population self)
  then update_self (set_running false) else retM tt.

(** [n] successive calls of [step]; a call that raises ends the run. *)
Fixpoint run (n : nat) : M unit :=
  match n with
  | O => retM tt
  | S n' => step ;; run n'
  end.

End Controller.

(** ** A concrete set of collaborators

    Used to run the model on concrete inputs. *)

Definition four_actions : list string :=
  ["Stay In"; "Party"; "Buy grocery"; "Help elderly"].

(** Modelled from the spec: [MainAgent.__init__] of [agent.py], which is
    not among the sources.  A new agent is Clean (the state machine of an
    agent starts at Clean), has taken no action yet, and holds an action
    probability for each of the four actions, summing to 1; its aspiration
    starts at the global aspiration, which [model.py] documents as the
    initial aspiration of the population. *)
Definition spec_MainAgent_new (i : nat) (a : Args) (p : nat * nat) : MainAgent :=
  {| unique_id := i;
     pos := p;
     infectionstate := CLEAN;
     quarantinestate := FREE;
     infected_time := 0;
     aspiration := arg_global_aspiration a;
     action_prob := list_to_map (map (fun act => (act, 0.25%float)) four_actions);
     action_done := [] |}.

(** Placement on the requested cell, drawing nothing:
    [grid[x][y] = agent; agent.pos = (x, y)].  One instance of
    [position_agent]; a mesa whose [position_agent] takes [x] and [y]
    separately and is given the cell as [x] alone draws an empty cell from
    the model's source instead, of which [place_on_first_empty] below is
    an instance. *)
Definition place_on_cell (g : SingleGrid) (r : nat) (p : nat * nat) (rng : Random)
    : SingleGrid * (nat * nat) * Random :=
  (mkSingleGrid (torus g)
     (alter (fun col => <[snd p := Some r]> col) (fst p) (cells g)), p, rng).

(** numpy's weighted choice between 0 and 1.  The weights are checked as
    numpy checks them - their sum is not NaN, none is negative, the sum
    is 1 within the square root of the machine epsilon, 2^-26 - and then
    one uniform variate is located in the normalised cumulative weights. *)
Definition numpy_choice01 (p0 p1 : float) (g : Random) : Res Z * Random :=
  let p_sum := (p0 + p1)%float in
  if negb (PrimFloat.eqb p_sum p_sum)
  then (Raise (ValueError "probabilities contain NaN"), g)
  else if PrimFloat.ltb p0 0 || PrimFloat.ltb p1 0
  then (Raise (ValueError "probabilities are not non-negative"), g)
  else if PrimFloat.ltb 0x1p-26 (PrimFloat.abs (p_sum - 1))
  then (Raise (ValueError "probabilities do not sum to 1"), g)
  else
    let '(u, g') := random_random g in
    let cdf0 := (p0 / p_sum)%float in
    (Return (if PrimFloat.leb cdf0 u then 1%Z else 0%Z), g').

(** A scheduler pass whose agents do nothing: only the counters move. *)
Definition idle_schedule_step : M unit :=
  update_self (fun self =>
    set_schedule
      (mkRandomActivation (sched_agents (schedule self))
         (steps (schedule self) + 1) (time (schedule self) + 1))
      self).

Definition sample_collaborators : Collaborators :=
  {| MainAgent_new := spec_MainAgent_new;
     position_agent := place_on_cell;
     np_random_choice := numpy_choice01;
     schedule_step := idle_schedule_step |}.

(** A source that always delivers [u]. *)
Definition constant_source (u : float) : Random := mkRandom (fun _ => u) 0.

(** A source that delivers [u0] first and [u] ever after. *)
Definition source_starting (u0 u : float) : Random :=
  mkRandom (fun n => match n with O => u0 | S _ => u end) 0.

Definition sample_args (density infection : float) (w h : Z) : Args :=
  {| arg_population_density := density;
     arg_death_rate := 0.02%float;
     arg_transfer_rate := 0.3%float;
     arg_initial_infection_rate := infection;
     arg_width := w;
     arg_height := h;
     arg_government_stringent := 0.5%float;
     arg_government_action_threshold := 0.3%float;
     arg_global_aspiration := 0.5%float;
     arg_recovery_days := 11;
     arg_habituation := 0.1%float;
     arg_learning_rate := 0.1%float |}.

(** The model the sample collaborators build, or the blank model of the
    same arguments should the construction raise. *)
Definition constructed (a : Args) (rng np : Random) : MainModel :=
  match fst (MainModel_init (H := sample_collaborators) a rng np) with
  | Return m => m
  | Raise _ =>
      init_fields a
        (mkBuilding (SingleGrid_new 0 0 true) (mkRandomActivation [] 0 0) ∅ 0 rng)
  end.

(** Two agents on a 2 x 1 grid, the first one seeded as infected. *)
Definition two_agent_model : MainModel :=
  constructed (sample_args 1 0.5 2 1) (constant_source 0.5)
    (source_starting 0.75 0.25).

(** Two agents on a 2 x 1 grid, both clean. *)
Definition two_clean_model : MainModel :=
  constructed (sample_args 1 0.5 2 1) (constant_source 0.5)
    (constant_source 0.25).

(** One clean agent on a 1 x 1 grid. *)
Definition one_agent_model : MainModel :=
  constructed (sample_args 1 0.5 1 1) (constant_source 0.5)
    (constant_source 0.25).

(** A 2 x 2 grid built with population density 0: no agent at all. *)
Definition empty_model : MainModel :=
  constructed (sample_args 0 0.5 2 2) (constant_source 0.5)
    (constant_source 0.25).

(** The attributes that hold the global parameters of the controller. *)
Record Parameters := mkParameters {
  par_population_density : float;
  par_death_rate : float;
  par_transfer_rate : float;
  par_initial_infection_rate : float;
  par_recovery_days : Z;
  par_government_action_threshold : float;
  par_government_stringent : float;
  par_global_aspiration : float;
  par_habituation : float;
  par_learning_rate : float;
  par_quarantine_prob : float;
  par_action_infection_prob : gmap string float;
  par_width : Z;
  par_height : Z;
  par_total_population : nat;
  par_action_count : nat
}.

Definition parameters (m : MainModel) : Parameters :=
  {| par_population_density := population_density m;
     par_death_rate := death_rate m;
     par_transfer_rate := transfer_rate m;
     par_initial_infection_rate := initial_infection_rate m;
     par_recovery_days := recovery_days m;
     par_government_action_threshold := government_action_threshold m;
     par_government_stringent := government_stringent m;
     par_global_aspiration := global_aspiration m;
     par_habituation := habituation m;
     par_learning_rate := learning_rate m;
     par_quarantine_prob := quarantine_prob m;
     par_action_infection_prob := action_infection_prob m;
     par_width := width m;
     par_height := height m;
     par_total_population := total_population m;
     par_action_count := action_count m |}.

(** The world in which the sample models take their steps. *)
Definition sample_world (m : MainModel) : World :=
  mkWorld m (constant_source 0.5).

(** The world after the counter update, the collection and the scheduler
    pass, when all three complete. *)
Definition after_pass {C : Collaborators} (w w3 : World) : Prop :=
  exists w2,
    collect (update_self (fun self => set_step_counter (step_counter self + 1) self) w).2
    = (Return tt, w2)
    /\ schedule_step w2 = (Return tt, w3).

(** The two checks that end [step], as a function of the model after the
    scheduler pass and of the ratio. *)
Definition end_of_step (ratio : PyNum) (m3 : MainModel) : MainModel :=
  let m4 :=
    if py_gt ratio (PyFloat (government_action_threshold m3))
    then set_lockdown true m3 else m3 in
  if Nat.eqb (MainModel_get_recovered_number m4 + MainModel_get_dead_number m4
              + MainModel_get_susceptible_number m4) (total_population m4)
  then set_running false m4 else m4.

(** The arithmetic mean as the specification words it: the sum of the
    values divided by their number. *)
Definition arithmetic_mean (values : list float) : Res PyNum :=
  py_truediv (py_sum (map PyFloat values)) (PyInt (Z.of_nat (length values))).

(** The probability an agent gives to the three go-out actions together,
    when it has all three. *)
Definition go_out_prob (a : MainAgent) : Res float :=
  party ← getitem (action_prob a) "Party";
  help ← getitem (action_prob a) "Help elderly";
  grocery ← getitem (action_prob a) "Buy grocery";
  Return (party + help + grocery)%float.

(** Where the agents are: the grid, the schedule, the population, each
    agent's position, and the state in which construction leaves the
    model's own source. *)
Definition placement (m : MainModel)
    : SingleGrid * RandomActivation * nat * gmap nat (nat * nat) * Random :=
  (grid m, schedule m, total_population m, pos <$> agents m, random m).

(** The same, for a model under construction. *)
Definition building_placement `{Collaborators} (b : Building)
    : SingleGrid * RandomActivation * nat * gmap nat (nat * nat) * Random :=
  (b_grid b, b_schedule b, b_i b, pos <$> b_agents b, b_random b).

(** An agent as the constructor leaves it: built by [MainAgent], given
    its position, and seeded or not. *)
Definition fresh_agent `{Collaborators} (a : Args) (ag : MainAgent) : Prop :=
  exists i xy p, ag = set_pos p (MainAgent_new i a xy).

Definition seeded_agent `{Collaborators} (a : Args) (ag : MainAgent) : Prop :=
  exists i xy p, ag = set_pos p (seed_infection 0 (MainAgent_new i a xy)).

(** Every agent in the store was built by [MainAgent] and then either
    left as built or seeded; the scheduler's clock stays at 0. *)
Definition origin_known `{Collaborators} (a : Args) (b : Building) : Prop :=
  time (b_schedule b) = 0
  /\ forall r ag, b_agents b !! r = Some ag -> fresh_agent a ag \/ seeded_agent a ag.

(** ** Further definitions: histories, comprehensions, the portrayal *)

(** The store is mutated through the agents it holds; the embedding
    stores its new value. *)
Definition set_agents (store : gmap nat MainAgent) (m : MainModel) : MainModel :=
  mkMainModel (population_density m) (death_rate m) (width m) (height m)
    (transfer_rate m) (initial_infection_rate m) (recovery_days m)
    (dead_agents_number m) (government_action_threshold m)
    (government_stringent m) (lockdown m) (quarantine_prob m) (habituation m)
    (learning_rate m) (global_aspiration m) (action_count m)
    (action_infection_prob m) (step_counter m) (dilemma_list m)
    (stay_in_list m) (stay_out_list m) (steps_list m) (aspiration_list m)
    (infection_list m) (grid m) (schedule m) (total_population m) (running m)
    (datacollector m) (random m) store.

(** [agent.action_done.append(act)] *)
Definition record_action (act : string) (a : MainAgent) : MainAgent :=
  {| unique_id := unique_id a;
     pos := pos a;
     infectionstate := infectionstate a;
     quarantinestate := quarantinestate a;
     infected_time := infected_time a;
     aspiration := aspiration a;
     action_prob := action_prob a;
     action_done := action_done a ++ [act] |}.

(** The model after the listed agents have each recorded an action. *)
Definition with_actions (acts : list (nat * string)) (m : MainModel) : MainModel :=
  set_agents
    (foldr (fun ra store => alter (record_action (snd ra)) (fst ra) store)
           (agents m) acts)
    m.

(** Both agents of [two_agent_model] have acted. *)
Definition acted_model : MainModel :=
  with_actions [(0, "Stay In"); (1, "Party")] two_agent_model.

(** Only the first agent of [two_agent_model] has acted. *)
Definition half_acted_model : MainModel :=
  with_actions [(0, "Stay In")] two_agent_model.

(** [[f(a) for a in l]] where [f] may raise. *)
Fixpoint collectM {A B} (f : A -> Res B) (l : list A) : Res (list B) :=
  match l with
  | [] => Return []
  | a :: l' => b ← f a; rest ← collectM f l'; Return (b :: rest)
  end.

(** What the average queries do with the values they gathered: divide
    their sum by the loop variable [i], if it is bound and not 0. *)
Definition sum_over_last_index (values : list PyNum) : Res PyNum :=
  match length values with
  | 0 => Raise UnboundLocalError
  | 1 => Raise ZeroDivisionError
  | S (S k) =>
      Return (PyFloat (to_float (py_sum values) / float_of_Z (Z.of_nat (S k))))
  end.

(** The values of a portrayal: strings and numbers. *)
Inductive PyVal :=
  | VStr (s : string)
  | VNum (n : PyNum).

Definition clean_color : string := "#00008b".
Definition recovered_color : string := "#008000".
Definition quarantine_color : string := "#FFA500".
Definition infected_color : string := "#FF0000".
Definition dead_color : string := "#000000".

(** [draw(agent)] of [server.py]: [None] for an empty cell, else the
    portrayal dict. *)
Definition draw (agent : option MainAgent) : option (gmap string PyVal) :=
  match agent with
  | None => None
  | Some agent =>
      let portrayal : gmap string PyVal :=
        <["Layer" := VNum (PyInt 0)]>
        (<["Filled" := VStr "true"]>
        (<["r" := VNum (PyFloat 0.5)]>
        (<["Shape" := VStr "circle"]> ∅))) in
      Some
        (if decide (infectionstate agent = CLEAN)
         then <["Color" := VStr clean_color]> portrayal
         else if decide (infectionstate agent = RECOVERED)
         then <["Color" := VStr recovered_color]> portrayal
         else if decide (quarantinestate agent = QUARANTINE)
         then <["Color" := VStr quarantine_color]> portrayal
         else if decide (infectionstate agent = INFECTED)
         then <["Color" := VStr infected_color]> portrayal
         else portrayal)
  end.

(** A column of the collector with one more value. *)
Definition column_with (col : string * list PyNum) (v : PyNum)
    : string * list PyNum :=
  (fst col, snd col ++ [v]).

(** The model after agent [r] lost the entry [key] of its action
    probabilities. *)
Definition without_prob (r : nat) (key : string) (m : MainModel) : MainModel :=
  set_agents
    (alter (fun a =>
              {| unique_id := unique_id a;
                 pos := pos a;
                 infectionstate := infectionstate a;
                 quarantinestate := quarantinestate a;
                 infected_time := infected_time a;
                 aspiration := aspiration a;
                 action_prob := delete key (action_prob a);
                 action_done := action_done a |}) r (agents m))
    m.

(** The references a grid holds, in [coord_iter] order. *)
Definition placed (g : SingleGrid) : list nat :=
  omap (fun c => fst (fst c)) (coord_iter g).

(** What the cell loop needs of [position_agent]: on a grid that is not
    full it puts the agent on some cell that was empty, moving no other
    agent and keeping the grid's size. *)
Definition places_on_free_cell `{Collaborators} : Prop :=
  forall (g : SingleGrid) (r : nat) (p : nat * nat) (rng : Random),
    length (placed g) < length (coord_iter g) ->
    length (coord_iter (position_agent g r p rng).1.1) = length (coord_iter g)
    /\ placed (position_agent g r p rng).1.1 ≡ₚ r :: placed g.

(** Putting [r] on the first empty cell of a column: the row found and
    the new column, or [None] when the column is full. *)
Fixpoint fill_column (r : nat) (col : list (option nat))
    : option (nat * list (option nat)) :=
  match col with
  | [] => None
  | None :: rest => Some (0, Some r :: rest)
  | Some r' :: rest =>
      match fill_column r rest with
      | Some (y, rest') => Some (S y, Some r' :: rest')
      | None => None
      end
  end.

(** The same over the columns of a grid. *)
Fixpoint fill_columns (r : nat) (cols : list (list (option nat)))
    : option (nat * nat * list (list (option nat))) :=
  match cols with
  | [] => None
  | col :: rest =>
      match fill_column r col with
      | Some (y, col') => Some (0, y, col' :: rest)
      | None =>
          match fill_columns r rest with
          | Some (x, y, rest') => Some (S x, y, col :: rest')
          | None => None
          end
      end
  end.

(** Placement on an empty cell of the grid's choosing, here the first
    one in [coord_iter] order; the request is ignored, and so is the
    call on a full grid. *)
Definition place_on_first_empty (g : SingleGrid) (r : nat) (p : nat * nat)
    (rng : Random) : SingleGrid * (nat * nat) * Random :=
  match fill_columns r (cells g) with
  | Some (x, y, cols) => (mkSingleGrid (torus g) cols, (x, y), rng)
  | None => (g, p, rng)
  end.

Definition first_empty_collaborators : Collaborators :=
  {| MainAgent_new := spec_MainAgent_new;
     position_agent := place_on_first_empty;
     np_random_choice := numpy_choice01;
     schedule_step := idle_schedule_step |}.

(** [agent.quarantinestate = QuarantineState.QUARANTINE] *)
Definition quarantined (a : MainAgent) : MainAgent :=
  {| unique_id := unique_id a;
     pos := pos a;
     infectionstate := infectionstate a;
     quarantinestate := QUARANTINE;
     infected_time := infected_time a;
     aspiration := aspiration a;
     action_prob := action_prob a;
     action_done := action_done a |}.

(** * Properties *)

(** ** Stay-in and go-out counts on empty action histories *)

Lemma filterM_empty_history (p : string -> bool) (l : list MainAgent) :
  Forall (fun a => action_done a = []) l ->
  l <> [] ->
  filterM (fun a => s ← getitem_last (action_done a); Return (p s)) l
  = Raise IndexError.
Proof.
  intros Hall Hne. destruct l as [|a l]; [congruence|].
  apply Forall_cons in Hall as [Ha _]. simpl. rewrite Ha. reflexivity.
Qed.

Lemma count_try_empty_history (p : string -> bool) (l : list MainAgent) :
  Forall (fun a => action_done a = []) l ->
  try_except
    (xs ← filterM (fun a => s ← getitem_last (action_done a); Return (p s)) l;
     Return (length xs)) 0
  = Return 0.
Proof.
  intros Hall. destruct l as [|a l]; [reflexivity|].
  rewrite filterM_empty_history; [reflexivity | assumption | discriminate].
Qed.

(** C10. When every scheduled agent has an empty action history, the four
    stay-in / go-out counts return 0: on a non-empty population the
    comprehension raises IndexError at the first agent, and the handler
    turns it into 0. *)
Theorem C10_counts_zero_on_empty_histories (m : MainModel) :
  Forall (fun a => action_done a = []) (schedule_agents m) ->
  get_stay_in m = Return 0
  /\ get_go_out m = Return 0
  /\ MainModel_get_stay_in_number m = Return 0
  /\ MainModel_get_stay_out_number m = Return 0
  /\ (schedule_agents m <> [] ->
      filterM last_is_stay_in (schedule_agents m) = Raise IndexError
      /\ filterM last_is_not_stay_in (schedule_agents m) = Raise IndexError).
Proof.
  intros Hall.
  unfold get_stay_in, get_go_out, MainModel_get_stay_in_number,
    MainModel_get_stay_out_number, last_is_stay_in, last_is_not_stay_in.
  repeat split.
  - apply (count_try_empty_history (fun s => bool_decide (s = "Stay In"))); exact Hall.
  - apply (count_try_empty_history (fun s => negb (bool_decide (s = "Stay In")))); exact Hall.
  - apply (count_try_empty_history (fun s => bool_decide (s = "Stay In"))); exact Hall.
  - apply (count_try_empty_history (fun s => negb (bool_decide (s = "Stay In")))); exact Hall.
  - apply (filterM_empty_history (fun s => bool_decide (s = "Stay In"))); assumption.
  - apply (filterM_empty_history (fun s => negb (bool_decide (s = "Stay In")))); assumption.
Qed.

Lemma C10_witness :
  get_stay_in two_agent_model = Return 0
  /\ get_go_out two_agent_model = Return 0
  /\ MainModel_get_stay_in_number two_agent_model = Return 0
  /\ MainModel_get_stay_out_number two_agent_model = Return 0.
Proof.
  assert (Hall : Forall (fun a => action_done a = []) (schedule_agents two_agent_model)).
  { vm_compute. repeat constructor. }
  destruct (C10_counts_zero_on_empty_histories two_agent_model Hall)
    as (H1 & H2 & H3 & H4 & _).
  repeat split; assumption.
Defined.

(** ** Grid scan against schedule scan *)

Lemma omap_step {A B} (f : A -> option B) (a : A) (l : list A) :
  omap f (a :: l) = match f a with Some b => b :: omap f l | None => omap f l end.
Proof. reflexivity. Qed.

Lemma count_grid_fold (s : InfectionState) (store : gmap nat MainAgent)
    (cs : list (option nat * nat * nat)) (acc : nat) :
  fold_left
    (fun number cell =>
       match fst (fst cell) with
       | None => number
       | Some r =>
           match store !! r with
           | Some agent =>
               if decide (infectionstate agent = s) then number + 1 else number
           | None => number
           end
       end) cs acc
  = acc + count_state s (omap (fun r => store !! r) (omap (fun c => fst (fst c)) cs)).
Proof.
  revert acc. induction cs as [|c cs IH]; intros acc.
  - unfold count_state. simpl. lia.
  - rewrite !omap_step. cbn [fold_left]. rewrite IH.
    destruct c as [[[r|] x] y]; cbn [fst]; [|reflexivity].
    rewrite omap_step.
    destruct (store !! r) as [agent|]; [|reflexivity].
    unfold count_state. rewrite filter_cons.
    destruct (decide (infectionstate agent = s)); cbn [length]; lia.
Qed.

Lemma count_grid_refs (s : InfectionState) (m : MainModel) :
  count_grid s m = count_state s (omap (fun r => agents m !! r) (grid_refs m)).
Proof. unfold count_grid, grid_refs. rewrite count_grid_fold. reflexivity. Qed.

(** C9. When the grid and the schedule hold the same agents - each agent
    on one cell and scheduled once, as mesa keeps them - the grid-scanning
    methods and the schedule-scanning functions return the same counts. *)
Theorem C9_grid_and_schedule_counts_agree (m : MainModel) :
  NoDup (grid_refs m) ->
  NoDup (sched_agents (schedule m)) ->
  (forall r, r ∈ grid_refs m <-> r ∈ sched_agents (schedule m)) ->
  MainModel_get_susceptible_number m = get_susceptible_number m
  /\ MainModel_get_infection_number m = get_infected_number m
  /\ MainModel_get_recovered_number m = get_recovered_number m.
Proof.
  intros Hgrid Hsched Hsame.
  assert (Hperm : grid_refs m ≡ₚ sched_agents (schedule m))
    by (apply NoDup_Permutation; assumption).
  assert (Hcount : forall s, count_grid s m = count_state s (schedule_agents m)).
  { intros s. rewrite count_grid_refs. unfold count_state, schedule_agents.
    rewrite Hperm. reflexivity. }
  unfold MainModel_get_susceptible_number, MainModel_get_infection_number,
    MainModel_get_recovered_number, get_susceptible_number, get_infected_number,
    get_recovered_number.
  repeat split; apply Hcount.
Qed.

Lemma C9_witness :
  MainModel_get_susceptible_number two_agent_model = get_susceptible_number two_agent_model
  /\ MainModel_get_infection_number two_agent_model = get_infected_number two_agent_model
  /\ MainModel_get_recovered_number two_agent_model = get_recovered_number two_agent_model.
Proof.
  apply C9_grid_and_schedule_counts_agree.
  - apply (bool_decide_unpack _). vm_compute. exact I.
  - apply (bool_decide_unpack _). vm_compute. exact I.
  - intros r. vm_compute. split; intros Hr; exact Hr.
Defined.

(** ** [step]: what the controller's own statements do *)

Section StepProperties.

Context {C : Collaborators}.

(** [step], statement by statement. *)
Lemma step_unfold (w : World) :
  step w =
  match collect (update_self (fun self => set_step_counter (step_counter self + 1) self) w).2 with
  | (Raise e, w2) => (Raise e, w2)
  | (Return _, w2) =>
      match schedule_step w2 with
      | (Raise e, w3) => (Raise e, w3)
      | (Return _, w3) =>
          match py_truediv
                  (PyInt (Z.of_nat (MainModel_get_infection_number (model w3))))
                  (PyInt (Z.of_nat (total_population (model w3)))) with
          | Raise e => (Raise e, w3)
          | Return ratio =>
              (Return tt, mkWorld (end_of_step ratio (model w3)) (np_random w3))
          end
      end
  end.
Proof.
  unfold step, bindM. unfold update_self at 1. cbn [snd].
  destruct (collect _) as [[[]|e] w2]; [|reflexivity].
  destruct (schedule_step w2) as [[[]|e] [m3 np3]]; [|reflexivity].
  unfold get_self, liftR. cbn [model np_random].
  destruct (py_truediv _ _) as [ratio|e]; [|reflexivity].
  unfold end_of_step.
  destruct (py_gt ratio _); unfold update_self, retM; cbn [model np_random];
    match goal with
    | |- context [Nat.eqb ?a ?b] => destruct (Nat.eqb a b)
    end; reflexivity.
Qed.

Lemma step_returns (w w' : World) :
  step w = (Return tt, w') ->
  exists w3 ratio,
    after_pass w w3
    /\ py_truediv (PyInt (Z.of_nat (MainModel_get_infection_number (model w3))))
                  (PyInt (Z.of_nat (total_population (model w3)))) = Return ratio
    /\ w' = mkWorld (end_of_step ratio (model w3)) (np_random w3).
Proof.
  rewrite step_unfold. unfold after_pass.
  destruct (collect _) as [[[]|e] w2]; [|discriminate].
  destruct (schedule_step w2) as [[[]|e] w3] eqn:E3; [|discriminate].
  destruct (py_truediv _ _) as [ratio|e] eqn:E4; [|discriminate].
  intros Hstep. injection Hstep as <-.
  exists w3, ratio. split; [exists w2; split; [reflexivity|exact E3]|].
  split; [exact E4|reflexivity].
Qed.

(** Any relation between models that the controller's own assignments and
    the scheduler pass respect is respected by [step], whether the call
    returns or raises. *)
Lemma step_respects (R : MainModel -> MainModel -> Prop) :
  (forall m, R m m) ->
  (forall m1 m2 m3, R m1 m2 -> R m2 m3 -> R m1 m3) ->
  (forall m n, R m (set_step_counter n m)) ->
  (forall m dc, R m (set_datacollector dc m)) ->
  (forall m, R m (set_lockdown true m)) ->
  (forall m, R m (set_running false m)) ->
  (forall w, R (model w) (model (schedule_step w).2)) ->
  forall w, R (model w) (model (step w).2).
Proof.
  intros Hrefl Htrans Hcounter Hdc Hlock Hrun Hpass w.
  rewrite step_unfold. unfold update_self. cbn [snd].
  set (m1 := set_step_counter _ (model w)).
  assert (H1 : R (model w) m1) by apply Hcounter.
  unfold collect. cbn [model np_random].
  destruct (DataCollector_collect m1 (datacollector m1)) as [r2 dc].
  set (w2 := mkWorld (set_datacollector dc m1) (np_random w)).
  assert (H2 : R (model w) (model w2)) by (eapply Htrans; [exact H1|apply Hdc]).
  destruct r2 as [[]|e]; [|exact H2].
  specialize (Hpass w2).
  destruct (schedule_step w2) as [r3 w3]. cbn [snd] in Hpass.
  assert (H3 : R (model w) (model w3)) by (eapply Htrans; eassumption).
  destruct r3 as [[]|e]; [|exact H3].
  destruct (py_truediv _ _) as [ratio|e]; [|exact H3].
  cbn [snd model]. unfold end_of_step.
  destruct (py_gt ratio _).
  - assert (H4 : R (model w) (set_lockdown true (model w3)))
      by (eapply Htrans; [exact H3|apply Hlock]).
    destruct (Nat.eqb _ _); [|exact H4].
    eapply Htrans; [exact H4|apply Hrun].
  - destruct (Nat.eqb _ _); [|exact H3].
    eapply Htrans; [exact H3|apply Hrun].
Qed.

Lemma run_respects (R : MainModel -> MainModel -> Prop) :
  (forall m, R m m) ->
  (forall m1 m2 m3, R m1 m2 -> R m2 m3 -> R m1 m3) ->
  (forall w, R (model w) (model (step w).2)) ->
  forall n w, R (model w) (model (run n w).2).
Proof.
  intros Hrefl Htrans Hstep n. induction n as [|n IH]; intros w.
  - apply Hrefl.
  - cbn [run]. unfold bindM. specialize (Hstep w).
    destruct (step w) as [[[]|e] w']; cbn [snd] in *.
    + eapply Htrans; [exact Hstep|apply IH].
    + exact Hstep.
Qed.

End StepProperties.

(** The two closing checks read the grid, the store, the dead counter,
    the population and the threshold, and write only the two flags. *)
Lemma end_of_step_lockdown (ratio : PyNum) (m : MainModel) :
  lockdown (end_of_step ratio m)
  = lockdown m || py_gt ratio (PyFloat (government_action_threshold m)).
Proof.
  unfold end_of_step.
  destruct (py_gt ratio _); destruct (Nat.eqb _ _); cbn;
    rewrite ?orb_true_r, ?orb_false_r; reflexivity.
Qed.

Lemma end_of_step_running (ratio : PyNum) (m : MainModel) :
  running (end_of_step ratio m)
  = running m
    && negb (Nat.eqb (MainModel_get_recovered_number m + MainModel_get_dead_number m
                      + MainModel_get_susceptible_number m) (total_population m)).
Proof.
  unfold end_of_step.
  destruct (py_gt ratio _).
  - change (MainModel_get_recovered_number (set_lockdown true m))
      with (MainModel_get_recovered_number m).
    change (MainModel_get_dead_number (set_lockdown true m))
      with (MainModel_get_dead_number m).
    change (MainModel_get_susceptible_number (set_lockdown true m))
      with (MainModel_get_susceptible_number m).
    change (total_population (set_lockdown true m)) with (total_population m).
    destruct (Nat.eqb _ _); cbn; rewrite ?andb_true_r, ?andb_false_r; reflexivity.
  - destruct (Nat.eqb _ _); cbn; rewrite ?andb_true_r, ?andb_false_r; reflexivity.
Qed.

Lemma end_of_step_reads (ratio : PyNum) (m : MainModel) :
  let m' := end_of_step ratio m in
  grid m' = grid m /\ agents m' = agents m
  /\ dead_agents_number m' = dead_agents_number m
  /\ total_population m' = total_population m
  /\ government_action_threshold m' = government_action_threshold m.
Proof.
  unfold end_of_step.
  destruct (py_gt ratio _); destruct (Nat.eqb _ _); cbn; repeat split.
Qed.

Lemma count_grid_reads (s : InfectionState) (m m' : MainModel) :
  grid m' = grid m -> agents m' = agents m -> count_grid s m' = count_grid s m.
Proof. intros Hg Ha. unfold count_grid. rewrite Hg, Ha. reflexivity. Qed.

(** C1. The lockdown trigger and its stickiness.  When [step] returns, the
    final state has [lockdown] set if the infected count over
    [total_population] strictly exceeds the threshold (the two closing
    checks do not change the counts, so the ratio may be read in the final
    state); and once [lockdown] is set it stays set after any number of
    further calls, returning or raising, as long as the agents' code does
    not reset it - [model.py] itself never assigns [False] after
    construction. *)
Theorem C1_lockdown_trigger_and_sticky (C : Collaborators) :
  (forall w, lockdown (model w) = true -> lockdown (model (schedule_step w).2) = true) ->
  forall w : World,
    (forall w' ratio,
       step w = (Return tt, w') ->
       py_truediv (PyInt (Z.of_nat (MainModel_get_infection_number (model w'))))
                  (PyInt (Z.of_nat (total_population (model w')))) = Return ratio ->
       py_gt ratio (PyFloat (government_action_threshold (model w'))) = true ->
       lockdown (model w') = true)
    /\ (lockdown (model w) = true ->
        forall n, lockdown (model (run n w).2) = true).
Proof.
  intros Hpass w. split.
  - intros w' ratio Hstep Hratio Hgt.
    apply step_returns in Hstep as (w3 & ratio3 & _ & Hratio3 & ->).
    cbn [model] in *.
    destruct (end_of_step_reads ratio3 (model w3)) as (Hg & Ha & _ & Htot & Hthr).
    unfold MainModel_get_infection_number in Hratio.
    rewrite (count_grid_reads _ _ _ Hg Ha), Htot in Hratio.
    unfold MainModel_get_infection_number in Hratio3.
    rewrite Hratio3 in Hratio. injection Hratio as ->.
    rewrite Hthr in Hgt.
    rewrite end_of_step_lockdown, Hgt. apply orb_true_r.
  - intros Hlock n.
    apply (run_respects (fun m m' => lockdown m = true -> lockdown m' = true));
      [auto | auto | | exact Hlock].
    apply (step_respects (fun m m' => lockdown m = true -> lockdown m' = true));
      auto.
Qed.

(** C2. The termination check and its permanence.  When [step] returns
    and the recovered, dead and susceptible counts of the final state add
    up to [total_population], [running] is false in that state; and once
    [running] is false it stays false after any number of further calls,
    as long as the agents' code does not set it again - [model.py] itself
    never assigns [True] after construction. *)
Theorem C2_termination_trigger_and_sticky (C : Collaborators) :
  (forall w, running (model w) = false -> running (model (schedule_step w).2) = false) ->
  forall w : World,
    (forall w',
       step w = (Return tt, w') ->
       MainModel_get_recovered_number (model w') + MainModel_get_dead_number (model w')
       + MainModel_get_susceptible_number (model w') = total_population (model w') ->
       running (model w') = false)
    /\ (running (model w) = false ->
        forall n, running (model (run n w).2) = false).
Proof.
  intros Hpass w. split.
  - intros w' Hstep Hsum.
    apply step_returns in Hstep as (w3 & ratio3 & _ & _ & ->).
    cbn [model] in *.
    destruct (end_of_step_reads ratio3 (model w3)) as (Hg & Ha & Hdead & Htot & _).
    unfold MainModel_get_recovered_number, MainModel_get_susceptible_number,
      MainModel_get_dead_number in Hsum.
    rewrite !(count_grid_reads _ _ _ Hg Ha), Hdead, Htot in Hsum.
    rewrite end_of_step_running.
    unfold MainModel_get_recovered_number, MainModel_get_susceptible_number,
      MainModel_get_dead_number.
    apply Nat.eqb_eq in Hsum. rewrite Hsum. apply andb_false_r.
  - intros Hrun n.
    apply (run_respects (fun m m' => running m = false -> running m' = false));
      [auto | auto | | exact Hrun].
    apply (step_respects (fun m m' => running m = false -> running m' = false));
      auto.
Qed.

(** C8. [step] leaves every global parameter of the controller as it
    was, whether the call returns or raises, provided the agents' code
    leaves them alone during the scheduler pass: the statements of [step]
    in [model.py] assign only [step_counter], [lockdown] and [running] and
    fill the data collector. *)
Theorem C8_step_preserves_parameters (C : Collaborators) :
  (forall w, parameters (model (schedule_step w).2) = parameters (model w)) ->
  forall w : World,
    let m := model w in
    let m' := model (step w).2 in
    population_density m' = population_density m
    /\ death_rate m' = death_rate m
    /\ transfer_rate m' = transfer_rate m
    /\ initial_infection_rate m' = initial_infection_rate m
    /\ recovery_days m' = recovery_days m
    /\ government_action_threshold m' = government_action_threshold m
    /\ government_stringent m' = government_stringent m
    /\ global_aspiration m' = global_aspiration m
    /\ habituation m' = habituation m
    /\ learning_rate m' = learning_rate m
    /\ quarantine_prob m' = quarantine_prob m
    /\ action_infection_prob m' = action_infection_prob m
    /\ width m' = width m
    /\ height m' = height m
    /\ total_population m' = total_population m
    /\ action_count m' = action_count m.
Proof.
  intros Hpass w m m'.
  assert (Hpar : parameters m' = parameters m).
  { unfold m, m'.
    apply (step_respects (fun m m' => parameters m' = parameters m));
      [reflexivity | intros; congruence | reflexivity | reflexivity
      | reflexivity | reflexivity | exact Hpass]. }
  unfold parameters in Hpar. injection Hpar as -> -> -> -> -> -> -> -> -> -> -> -> -> -> -> ->.
  repeat split.
Qed.

Lemma idle_pass_reads (w : World) :
  lockdown (model (idle_schedule_step w).2) = lockdown (model w)
  /\ running (model (idle_schedule_step w).2) = running (model w)
  /\ parameters (model (idle_schedule_step w).2) = parameters (model w).
Proof. repeat split. Qed.

Lemma C1_witness :
  let w := sample_world two_agent_model in
  lockdown (model w) = false
  /\ lockdown (model (@step sample_collaborators w).2) = true
  /\ forall n,
       lockdown (model (@run sample_collaborators n (@step sample_collaborators w).2).2)
       = true.
Proof.
  intros w.
  assert (Hpass : forall w0, lockdown (model w0) = true ->
                  lockdown (model (@schedule_step sample_collaborators w0).2) = true).
  { intros w0 H0. exact H0. }
  pose proof (C1_lockdown_trigger_and_sticky sample_collaborators Hpass) as Hthm.
  assert (E : (@step sample_collaborators w).1 = Return tt) by (vm_compute; reflexivity).
  assert (Hstep : @step sample_collaborators w
                  = (Return tt, (@step sample_collaborators w).2))
    by (rewrite <- E; apply surjective_pairing).
  assert (Hlock : lockdown (model (@step sample_collaborators w).2) = true).
  { destruct (Hthm w) as [Htrigger _].
    apply (Htrigger _ (PyFloat 0.5) Hstep); vm_compute; reflexivity. }
  split; [vm_compute; reflexivity|]. split; [exact Hlock|].
  destruct (Hthm (@step sample_collaborators w).2) as [_ Hsticky].
  exact (Hsticky Hlock).
Defined.

Lemma C2_witness :
  let w := sample_world two_clean_model in
  running (model w) = true
  /\ running (model (@step sample_collaborators w).2) = false
  /\ forall n,
       running (model (@run sample_collaborators n (@step sample_collaborators w).2).2)
       = false.
Proof.
  intros w.
  assert (Hpass : forall w0, running (model w0) = false ->
                  running (model (@schedule_step sample_collaborators w0).2) = false).
  { intros w0 H0. exact H0. }
  pose proof (C2_termination_trigger_and_sticky sample_collaborators Hpass) as Hthm.
  assert (E : (@step sample_collaborators w).1 = Return tt) by (vm_compute; reflexivity).
  assert (Hstep : @step sample_collaborators w
                  = (Return tt, (@step sample_collaborators w).2))
    by (rewrite <- E; apply surjective_pairing).
  assert (Hstop : running (model (@step sample_collaborators w).2) = false).
  { destruct (Hthm w) as [Htrigger _].
    apply (Htrigger _ Hstep). vm_compute. reflexivity. }
  split; [vm_compute; reflexivity|]. split; [exact Hstop|].
  destruct (Hthm (@step sample_collaborators w).2) as [_ Hsticky].
  exact (Hsticky Hstop).
Defined.

Lemma C8_witness :
  let m := two_agent_model in
  let m' := model (@step sample_collaborators (sample_world two_agent_model)).2 in
  population_density m' = population_density m
  /\ death_rate m' = death_rate m
  /\ transfer_rate m' = transfer_rate m
  /\ initial_infection_rate m' = initial_infection_rate m
  /\ recovery_days m' = recovery_days m
  /\ government_action_threshold m' = government_action_threshold m
  /\ government_stringent m' = government_stringent m
  /\ global_aspiration m' = global_aspiration m
  /\ habituation m' = habituation m
  /\ learning_rate m' = learning_rate m
  /\ quarantine_prob m' = quarantine_prob m
  /\ action_infection_prob m' = action_infection_prob m
  /\ width m' = width m
  /\ height m' = height m
  /\ total_population m' = total_population m
  /\ action_count m' = action_count m.
Proof.
  apply (C8_step_preserves_parameters sample_collaborators
           (fun w0 => proj2 (proj2 (idle_pass_reads w0)))
           (sample_world two_agent_model)).
Defined.

(** ** The averages *)

(** The aspiration loop of [get_avg_aspiration]: the running total, and
    the last index in [i]. *)
Lemma aspiration_loop (l : list MainAgent) (k : nat) (acc : PyNum) (oi : option nat) :
  foldM (fun '(acc, _) '(i, a) =>
           Return (py_add acc (PyFloat (aspiration a)), Some i))
        (acc, oi) (imap (fun i a => (k + i, a)) l)
  = Return (fold_left py_add (map (fun a => PyFloat (aspiration a)) l) acc,
            match l with [] => oi | _ :: _ => Some (k + length l - 1) end).
Proof.
  revert k acc oi. induction l as [|a l IH]; intros k acc oi; [reflexivity|].
  cbn [imap foldM]. change (mbind ?f (Return ?x)) with (f x). cbn beta iota.
  rewrite (imap_ext _ (fun i a => (S k + i, a)) l)
    by (intros; cbn; f_equal; lia).
  rewrite IH. cbn [map fold_left length]. do 2 f_equal.
  destruct l; cbn [length]; f_equal; lia.
Qed.

(** On two agents or more, [get_avg_aspiration] divides the total by the
    last index - the population less one. *)
Lemma MainModel_get_avg_aspiration_divisor (m : MainModel) (n : nat) :
  length (schedule_agents m) = S (S n) ->
  MainModel_get_avg_aspiration m
  = Return (PyFloat
      (to_float (py_sum (map (fun a => PyFloat (aspiration a)) (schedule_agents m)))
       / float_of_Z (Z.of_nat (S n)))).
Proof.
  intros Hlen. unfold MainModel_get_avg_aspiration, enumerate.
  rewrite (imap_ext pair (fun i a => (0 + i, a)) (schedule_agents m))
    by reflexivity.
  rewrite aspiration_loop.
  destruct (schedule_agents m) as [|a l]; [discriminate|].
  change (mbind ?f (Return ?x)) with (f x). cbn beta iota.
  rewrite Hlen. replace (0 + S (S n) - 1) with (S n) by lia.
  reflexivity.
Qed.

(** With no scheduled agent, the loop variable of the two probability
    averages is unbound when it is read. *)
Lemma averages_on_empty_schedule (m : MainModel) :
  schedule_agents m = [] ->
  get_average_stay_in m = Raise UnboundLocalError
  /\ get_average_go_out m = Raise UnboundLocalError
  /\ get_average_aspiration m = Return (PyInt 0)
  /\ MainModel_get_avg_aspiration m = Return (PyInt 0).
Proof.
  intros Hnone.
  unfold get_average_stay_in, get_average_go_out, get_average_aspiration,
    MainModel_get_avg_aspiration.
  rewrite Hnone. repeat split.
Qed.

(** C3. The model built with population density 0 has no agent.  Its
    counts are 0, as are the aspiration sum and the method
    [get_avg_aspiration] (whose handler catches the unbound loop
    variable); but [get_average_stay_in] and [get_average_go_out], which
    have no handler, raise UnboundLocalError - and so does [step], which
    collects them. *)
Theorem C3_zero_population_queries :
  (@MainModel_init sample_collaborators (sample_args 0 0.5 2 2)
     (constant_source 0.5) (constant_source 0.25)).1 = Return empty_model
  /\ total_population empty_model = 0
  /\ schedule_agents empty_model = []
  /\ get_susceptible_number empty_model = 0
  /\ get_infected_number empty_model = 0
  /\ get_recovered_number empty_model = 0
  /\ get_dead_number empty_model = 0
  /\ MainModel_get_susceptible_number empty_model = 0
  /\ MainModel_get_infection_number empty_model = 0
  /\ MainModel_get_recovered_number empty_model = 0
  /\ MainModel_get_dead_number empty_model = 0
  /\ get_stay_in empty_model = Return 0
  /\ get_go_out empty_model = Return 0
  /\ MainModel_get_stay_in_number empty_model = Return 0
  /\ MainModel_get_stay_out_number empty_model = Return 0
  /\ get_average_aspiration empty_model = Return (PyInt 0)
  /\ MainModel_get_avg_aspiration empty_model = Return (PyInt 0)
  /\ get_average_stay_in empty_model = Raise UnboundLocalError
  /\ get_average_go_out empty_model = Raise UnboundLocalError
  /\ (@step sample_collaborators (sample_world empty_model)).1 = Raise UnboundLocalError.
Proof. repeat split; vm_compute; reflexivity. Qed.

(** C4. On two agents with aspiration 0.5 and stay-in probability 0.25
    each, the means are 0.5, 0.25 and 0.75, but the queries return 1 (the
    sum over the last index 1, or the sum itself), 0.5 and 1.5.  On one
    agent the divisor is 0: [get_average_stay_in] and [get_average_go_out]
    raise ZeroDivisionError and [get_avg_aspiration] returns 0. *)
Theorem C4_averages_use_last_index :
  map aspiration (schedule_agents two_agent_model) = [0.5; 0.5]%float
  /\ arithmetic_mean [0.5; 0.5]%float = Return (PyFloat 0.5)
  /\ MainModel_get_avg_aspiration two_agent_model = Return (PyFloat 1)
  /\ get_average_aspiration two_agent_model = Return (PyFloat 1)
  /\ map (fun a => getitem (action_prob a) "Stay In") (schedule_agents two_agent_model)
     = [Return 0.25; Return 0.25]%float
  /\ arithmetic_mean [0.25; 0.25]%float = Return (PyFloat 0.25)
  /\ get_average_stay_in two_agent_model = Return (PyFloat 0.5)
  /\ map go_out_prob (schedule_agents two_agent_model)
     = [Return 0.75; Return 0.75]%float
  /\ arithmetic_mean [0.75; 0.75]%float = Return (PyFloat 0.75)
  /\ get_average_go_out two_agent_model = Return (PyFloat 1.5)
  /\ map aspiration (schedule_agents one_agent_model) = [0.5]%float
  /\ arithmetic_mean [0.5]%float = Return (PyFloat 0.5)
  /\ MainModel_get_avg_aspiration one_agent_model = Return (PyInt 0)
  /\ get_average_stay_in one_agent_model = Raise ZeroDivisionError
  /\ get_average_go_out one_agent_model = Raise ZeroDivisionError.
Proof. repeat split; vm_compute; reflexivity. Qed.

(** ** The constructor *)

Section InitProperties.

Context {C : Collaborators}.

Lemma init_cell_placement (a : Args) (x y : nat) (b1 b2 b1' b2' : Building)
    (np1 np2 np1' np2' : Random) :
  building_placement b1 = building_placement b2 ->
  init_cell a x y b1 np1 = (Return b1', np1') ->
  init_cell a x y b2 np2 = (Return b2', np2') ->
  building_placement b1' = building_placement b2'.
Proof.
  destruct b1 as [g1 s1 ag1 i1 r1], b2 as [g2 s2 ag2 i2 r2].
  unfold building_placement, init_cell. cbn [b_grid b_schedule b_agents b_i b_random].
  intros Hsame. injection Hsame as -> -> -> Hpos ->.
  destruct (random_random r2) as [u rng].
  destruct (PrimFloat.ltb u (arg_population_density a)).
  - destruct (np_random_choice _ _ np1) as [[c1|e1] n1]; [|discriminate].
    destruct (np_random_choice _ _ np2) as [[c2|e2] n2]; [|discriminate].
    destruct (position_agent g2 i2 (x, y) rng) as [[g p] rng'].
    intros H1 H2. injection H1 as <- _. injection H2 as <- _.
    cbn [b_grid b_schedule b_agents b_i b_random].
    rewrite !fmap_insert, Hpos. destruct (Z.eqb c1 1), (Z.eqb c2 1); reflexivity.
  - intros H1 H2. injection H1 as <- _. injection H2 as <- _.
    cbn [b_grid b_schedule b_agents b_i b_random]. rewrite Hpos. reflexivity.
Qed.

Lemma init_cells_placement (a : Args) (coords : list (nat * nat)) :
  forall (b1 b2 b1' b2' : Building) (np1 np2 np1' np2' : Random),
    building_placement b1 = building_placement b2 ->
    init_cells a coords b1 np1 = (Return b1', np1') ->
    init_cells a coords b2 np2 = (Return b2', np2') ->
    building_placement b1' = building_placement b2'.
Proof.
  induction coords as [|[x y] coords IH]; intros b1 b2 b1' b2' np1 np2 np1' np2' Hsame.
  - cbn [init_cells]. intros H1 H2. injection H1 as <- _. injection H2 as <- _.
    exact Hsame.
  - cbn [init_cells].
    destruct (init_cell a x y b1 np1) as [[c1|e1] n1] eqn:E1; [|discriminate].
    destruct (init_cell a x y b2 np2) as [[c2|e2] n2] eqn:E2; [|discriminate].
    apply IH. exact (init_cell_placement _ _ _ _ _ _ _ _ _ _ _ Hsame E1 E2).
Qed.

Lemma init_returns (a : Args) (rng np np' : Random) (m : MainModel) :
  MainModel_init a rng np = (Return m, np') ->
  exists b,
    init_cells a
      (map (fun cell => (snd (fst cell), snd cell))
           (coord_iter (SingleGrid_new (arg_width a) (arg_height a) true)))
      (mkBuilding (SingleGrid_new (arg_width a) (arg_height a) true)
                  (mkRandomActivation [] 0 0) ∅ 0 rng) np
    = (Return b, np')
    /\ m = init_fields a b.
Proof.
  unfold MainModel_init. cbv zeta.
  destruct (init_cells _ _ _ _) as [[b|e] n]; [|discriminate].
  intros Hm. injection Hm as <- <-. exists b. split; reflexivity.
Qed.

Lemma init_cell_origin (a : Args) (x y : nat) (b b' : Building) (np np' : Random) :
  origin_known a b ->
  init_cell a x y b np = (Return b', np') ->
  origin_known a b'.
Proof.
  intros [Htime Hall]. unfold init_cell.
  destruct (random_random (b_random b)) as [u rng].
  destruct (PrimFloat.ltb u (arg_population_density a)).
  - destruct (np_random_choice _ _ np) as [[c|e] n]; [|discriminate].
    destruct (position_agent (b_grid b) (b_i b) (x, y) rng) as [[g p] rng'].
    intros Hb. injection Hb as <- _. split; [exact Htime|].
    cbn [b_agents]. intros r ag Hlook.
    destruct (decide (b_i b = r)) as [Heq|Hne].
    + subst r. rewrite lookup_insert_eq in Hlook. injection Hlook as <-.
      rewrite Htime. destruct (Z.eqb c 1).
      * right. exists (b_i b), (x, y), p. reflexivity.
      * left. exists (b_i b), (x, y), p. reflexivity.
    + rewrite lookup_insert_ne in Hlook by exact Hne. eauto.
  - intros Hb. injection Hb as <- _. split; [exact Htime|exact Hall].
Qed.

Lemma init_cells_origin (a : Args) (coords : list (nat * nat)) :
  forall (b b' : Building) (np np' : Random),
    origin_known a b ->
    init_cells a coords b np = (Return b', np') ->
    origin_known a b'.
Proof.
  induction coords as [|[x y] coords IH]; intros b b' np np' Hb.
  - cbn [init_cells]. intros H. injection H as <- _. exact Hb.
  - cbn [init_cells].
    destruct (init_cell a x y b np) as [[c|e] n] eqn:E; [|discriminate].
    apply IH. exact (init_cell_origin _ _ _ _ _ _ _ Hb E).
Qed.

Lemma init_agents_origin (a : Args) (rng np np' : Random) (m : MainModel) :
  MainModel_init a rng np = (Return m, np') ->
  forall r ag, agents m !! r = Some ag -> fresh_agent a ag \/ seeded_agent a ag.
Proof.
  intros Hinit. apply init_returns in Hinit as (b & Hcells & ->).
  apply init_cells_origin in Hcells as [_ Hall]; [exact Hall|].
  split; [reflexivity|]. intros r ag Hlook. cbn in Hlook.
  rewrite lookup_empty in Hlook. discriminate.
Qed.


End InitProperties.

(** C5 (as amended). Two constructions with the same arguments and the
    same state of the model's own source place the same agents on the
    same cells whatever the state of numpy's global generator, from which
    the initial infections are drawn; when numpy's generator also starts
    in the same state, the two initial models are identical and so is
    every later step. *)
Theorem C5_placement_from_own_source (C : Collaborators) (a : Args) (rng : Random) :
  (forall np1 np2 m1 m2 np1' np2',
     MainModel_init a rng np1 = (Return m1, np1') ->
     MainModel_init a rng np2 = (Return m2, np2') ->
     placement m1 = placement m2)
  /\ (forall np1 np2 m1 m2 np1' np2',
        np1 = np2 ->
        MainModel_init a rng np1 = (Return m1, np1') ->
        MainModel_init a rng np2 = (Return m2, np2') ->
        m1 = m2 /\ np1' = np2'
        /\ forall n, run n (mkWorld m1 np1') = run n (mkWorld m2 np2')).
Proof.
  split.
  - intros np1 np2 m1 m2 np1' np2' H1 H2.
    apply init_returns in H1 as (b1 & Hb1 & ->).
    apply init_returns in H2 as (b2 & Hb2 & ->).
    assert (Hsame : building_placement b1 = building_placement b2)
      by (eapply init_cells_placement; [reflexivity | exact Hb1 | exact Hb2]).
    unfold building_placement in Hsame. injection Hsame as Hg Hs Hi Hpos Hr.
    unfold placement. cbn. rewrite Hg, Hs, Hi, Hpos, Hr. reflexivity.
  - intros np1 np2 m1 m2 np1' np2' -> H1 H2.
    rewrite H1 in H2. injection H2 as <- <-. repeat split.
Qed.

Lemma constructed_returns (a : Args) (rng np : Random) :
  is_Return (@MainModel_init sample_collaborators a rng np).1 = true ->
  @MainModel_init sample_collaborators a rng np
  = (Return (constructed a rng np), (@MainModel_init sample_collaborators a rng np).2).
Proof.
  unfold constructed.
  destruct (@MainModel_init sample_collaborators a rng np) as [[m|e] np'];
    [reflexivity | discriminate].
Qed.

Lemma C5_witness :
  let a := sample_args 1 0.5 1 1 in
  let rng := constant_source 0.5 in
  placement (constructed a rng (constant_source 0.75))
  = placement (constructed a rng (constant_source 0.25)).
Proof.
  intros a rng.
  destruct (C5_placement_from_own_source sample_collaborators a rng) as [Hplace _].
  eapply Hplace; apply constructed_returns; vm_compute; reflexivity.
Defined.

(** With the same arguments and the same state of the model's own source,
    two states of numpy's generator give two different initial models:
    the single agent is infected in one and clean in the other. *)
Lemma C5_counterexample :
  let a := sample_args 1 0.5 1 1 in
  let rng := constant_source 0.5 in
  let run1 := @MainModel_init sample_collaborators a rng (constant_source 0.75) in
  let run2 := @MainModel_init sample_collaborators a rng (constant_source 0.25) in
  (exists m1, run1.1 = Return m1
              /\ map infectionstate (schedule_agents m1) = [INFECTED])
  /\ (exists m2, run2.1 = Return m2
                 /\ map infectionstate (schedule_agents m2) = [CLEAN])
  /\ run1.1 <> run2.1.
Proof.
  intros a rng run1 run2.
  assert (H1 : run1.1 = Return (constructed a rng (constant_source 0.75)))
    by (unfold run1; rewrite constructed_returns; [reflexivity | vm_compute; reflexivity]).
  assert (H2 : run2.1 = Return (constructed a rng (constant_source 0.25)))
    by (unfold run2; rewrite constructed_returns; [reflexivity | vm_compute; reflexivity]).
  split; [eexists; split; [exact H1 | vm_compute; reflexivity]|].
  split; [eexists; split; [exact H2 | vm_compute; reflexivity]|].
  rewrite H1, H2. intros Heq.
  apply (f_equal (fun r => match r with
                           | Return m => map infectionstate (schedule_agents m)
                           | Raise _ => []
                           end)) in Heq.
  vm_compute in Heq. discriminate.
Qed.

Lemma seeded_agent_fields {C : Collaborators} (a : Args) (ag : MainAgent) :
  seeded_agent a ag ->
  infectionstate ag = INFECTED /\ quarantinestate ag = FREE /\ infected_time ag = 0.
Proof. intros (i & xy & p & ->). repeat split. Qed.

(** C6 (as amended). After construction every agent is either as
    [MainAgent] built it, or seeded as infected - and then it is
    Infected, Free and infected at scheduler time 0, whatever the two
    random sources delivered.  The constructor stores
    [quarantine_prob = 0.3] and does not read it. *)
Theorem C6_seeded_agents_are_free (C : Collaborators) (a : Args)
    (rng np np' : Random) (m : MainModel) :
  MainModel_init a rng np = (Return m, np') ->
  quarantine_prob m = 0.3%float
  /\ forall r ag, agents m !! r = Some ag ->
       fresh_agent a ag
       \/ (seeded_agent a ag /\ infectionstate ag = INFECTED
           /\ quarantinestate ag = FREE /\ infected_time ag = 0).
Proof.
  intros Hinit. split.
  - apply init_returns in Hinit as (b & _ & ->). reflexivity.
  - intros r ag Hlook.
    destruct (init_agents_origin _ _ _ _ _ Hinit r ag Hlook) as [Hfresh|Hseeded].
    + left. exact Hfresh.
    + right. split; [exact Hseeded|]. exact (seeded_agent_fields _ _ Hseeded).
Qed.

Lemma C6_witness :
  let m := constructed (sample_args 1 1 1 1) (constant_source 0.5) (constant_source 0.5) in
  quarantine_prob m = 0.3%float
  /\ forall r ag, agents m !! r = Some ag ->
       @fresh_agent sample_collaborators (sample_args 1 1 1 1) ag
       \/ (@seeded_agent sample_collaborators (sample_args 1 1 1 1) ag
           /\ infectionstate ag = INFECTED
           /\ quarantinestate ag = FREE /\ infected_time ag = 0).
Proof.
  intros m.
  apply (C6_seeded_agents_are_free sample_collaborators (sample_args 1 1 1 1)
           (constant_source 0.5) (constant_source 0.5)
           (@MainModel_init sample_collaborators (sample_args 1 1 1 1)
              (constant_source 0.5) (constant_source 0.5)).2).
  apply constructed_returns. vm_compute. reflexivity.
Defined.

(** On a 1 x 1 grid with density 1 and initial infection rate 1 the agent
    is seeded as infected and is Free; and no state of the two random
    sources makes a constructed agent Infected and in Quarantine. *)
Lemma C6_counterexample :
  let a := sample_args 1 1 1 1 in
  (exists m,
     (@MainModel_init sample_collaborators a (constant_source 0.5)
        (constant_source 0.5)).1 = Return m
     /\ map (fun ag => (infectionstate ag, quarantinestate ag)) (schedule_agents m)
        = [(INFECTED, FREE)])
  /\ ~ (exists rng np m r ag,
          (@MainModel_init sample_collaborators a rng np).1 = Return m
          /\ agents m !! r = Some ag
          /\ infectionstate ag = INFECTED
          /\ quarantinestate ag = QUARANTINE).
Proof.
  intros a. split.
  - eexists. split.
    + rewrite constructed_returns; [reflexivity | vm_compute; reflexivity].
    + vm_compute. reflexivity.
  - intros (rng & np & m & r & ag & Hinit & Hlook & Hinf & Hq).
    assert (Hfull : @MainModel_init sample_collaborators a rng np
                    = (Return m, (@MainModel_init sample_collaborators a rng np).2))
      by (rewrite <- Hinit; apply surjective_pairing).
    destruct (init_agents_origin _ _ _ _ _ Hfull r ag Hlook) as [Hfresh|Hseeded].
    + destruct Hfresh as (i & xy & p & ->). discriminate Hinf.
    + apply seeded_agent_fields in Hseeded as (_ & Hfree & _). congruence.
Qed.





(** * Further properties of the queries *)

Lemma count_state_partition (l : list MainAgent) :
  count_state CLEAN l + count_state INFECTED l + count_state RECOVERED l
  + count_state DEAD l = length l.
Proof.
  unfold count_state. induction l as [|a l IH]; [reflexivity|].
  rewrite !filter_cons.
  destruct (infectionstate a);
    repeat (destruct (decide _); try congruence); cbn [length]; lia.
Qed.

Lemma count_state_zero (s : InfectionState) (l : list MainAgent) :
  count_state s l = 0 <-> Forall (fun a => infectionstate a <> s) l.
Proof.
  unfold count_state. induction l as [|a l IH].
  - split; [constructor | reflexivity].
  - rewrite filter_cons, Forall_cons.
    destruct (decide (infectionstate a = s)) as [Heq|Hne]; cbn [length].
    + split; [discriminate | intros [Hne _]; contradiction].
    + rewrite IH. tauto.
Qed.

(** X1. The three state counts over the schedule never exceed the number
    of scheduled agents, and add up to it exactly when no scheduled agent
    is Dead. *)
Theorem counts_bounded_by_population (m : MainModel) :
  get_susceptible_number m + get_infected_number m + get_recovered_number m
  <= length (schedule_agents m)
  /\ (get_susceptible_number m + get_infected_number m + get_recovered_number m
      = length (schedule_agents m)
      <-> Forall (fun a => infectionstate a <> DEAD) (schedule_agents m)).
Proof.
  unfold get_susceptible_number, get_infected_number, get_recovered_number.
  pose proof (count_state_partition (schedule_agents m)) as Hpart.
  split; [lia|]. rewrite <- count_state_zero. lia.
Qed.

Lemma counts_bounded_by_population_witness :
  get_susceptible_number two_agent_model + get_infected_number two_agent_model
  + get_recovered_number two_agent_model = length (schedule_agents two_agent_model).
Proof.
  apply (proj2 (counts_bounded_by_population two_agent_model)).
  vm_compute. repeat constructor; discriminate.
Defined.

Lemma filterM_all_return {A} (p : A -> Res bool) (q : A -> bool) (l : list A) :
  Forall (fun a => p a = Return (q a)) l ->
  filterM p l = Return (List.filter q l).
Proof.
  induction 1 as [|a l Ha _ IH]; [reflexivity|].
  cbn [filterM List.filter]. rewrite Ha, IH. destruct (q a); reflexivity.
Qed.

Lemma filterM_some_raise {A} (p : A -> Res bool) (l : list A) :
  Exists (fun a => exists e, p a = Raise e) l ->
  exists e, filterM p l = Raise e.
Proof.
  induction 1 as [a l [e He]|a l _ [e IH]].
  - exists e. cbn [filterM]. rewrite He. reflexivity.
  - cbn [filterM]. destruct (p a) as [b|e'].
    + exists e. change (mbind ?f (Return ?x)) with (f x). cbn beta.
      rewrite IH. reflexivity.
    + exists e'. reflexivity.
Qed.

Lemma filter_complement_length {A} (q : A -> bool) (l : list A) :
  length (List.filter q l) + length (List.filter (fun a => negb (q a)) l) = length l.
Proof.
  induction l as [|a l IH]; [reflexivity|].
  cbn [List.filter]. destruct (q a); cbn [negb length]; lia.
Qed.

(** Whether the last recorded action of an agent is "Stay In". *)
Lemma last_is_stay_in_acted (a : MainAgent) :
  action_done a <> [] ->
  last_is_stay_in a
  = Return (bool_decide (last (action_done a) = Some "Stay In"))
  /\ last_is_not_stay_in a
     = Return (negb (bool_decide (last (action_done a) = Some "Stay In"))).
Proof.
  intros Hacted. unfold last_is_stay_in, last_is_not_stay_in, getitem_last.
  destruct (last (action_done a)) as [s|] eqn:Hlast.
  - change (mbind ?f (Return ?x)) with (f x). cbn beta.
    assert (Hdec : bool_decide (s = "Stay In") = bool_decide (Some s = Some "Stay In")).
    { apply bool_decide_ext. split; [intros ->; reflexivity | intros [=]; assumption]. }
    rewrite Hdec. split; reflexivity.
  - apply last_None in Hlast. contradiction.
Qed.

(** X2. When every scheduled agent has recorded an action, the stay-in
    and go-out counts are the numbers of agents whose last action is, and
    is not, "Stay In"; together they count every scheduled agent. *)
Theorem stay_in_and_go_out_partition (m : MainModel) :
  Forall (fun a => action_done a <> []) (schedule_agents m) ->
  let stayed a := bool_decide (last (action_done a) = Some "Stay In") in
  get_stay_in m = Return (length (List.filter stayed (schedule_agents m)))
  /\ get_go_out m
     = Return (length (List.filter (fun a => negb (stayed a)) (schedule_agents m)))
  /\ length (List.filter stayed (schedule_agents m))
     + length (List.filter (fun a => negb (stayed a)) (schedule_agents m))
     = length (schedule_agents m).
Proof.
  intros Hacted stayed. unfold get_stay_in, get_go_out.
  rewrite (filterM_all_return last_is_stay_in stayed).
  2:{ eapply Forall_impl; [exact Hacted|].
      intros a Ha. apply (last_is_stay_in_acted a Ha). }
  rewrite (filterM_all_return last_is_not_stay_in (fun a => negb (stayed a))).
  2:{ eapply Forall_impl; [exact Hacted|].
      intros a Ha. apply (last_is_stay_in_acted a Ha). }
  repeat split. apply filter_complement_length.
Qed.

Lemma stay_in_and_go_out_partition_witness :
  get_stay_in acted_model = Return 1
  /\ get_go_out acted_model = Return 1
  /\ length (schedule_agents acted_model) = 2.
Proof.
  assert (Hacted : Forall (fun a => action_done a <> []) (schedule_agents acted_model)).
  { vm_compute. repeat constructor; discriminate. }
  destruct (stay_in_and_go_out_partition acted_model Hacted) as (Hin & Hout & _).
  split; [rewrite Hin; vm_compute; reflexivity|].
  split; [rewrite Hout; vm_compute; reflexivity|].
  vm_compute. reflexivity.
Defined.

(** X3. One scheduled agent without any recorded action is enough for
    all four stay-in / go-out counts to return 0, whatever the other
    agents did: the IndexError aborts the whole comprehension. *)
Theorem one_empty_history_zeroes_counts (m : MainModel) :
  Exists (fun a => action_done a = []) (schedule_agents m) ->
  get_stay_in m = Return 0
  /\ get_go_out m = Return 0
  /\ MainModel_get_stay_in_number m = Return 0
  /\ MainModel_get_stay_out_number m = Return 0.
Proof.
  intros Hempty.
  assert (Hin : exists e, filterM last_is_stay_in (schedule_agents m) = Raise e).
  { apply filterM_some_raise. eapply Exists_impl; [exact Hempty|].
    intros a Ha. exists IndexError. unfold last_is_stay_in. rewrite Ha. reflexivity. }
  assert (Hout : exists e, filterM last_is_not_stay_in (schedule_agents m) = Raise e).
  { apply filterM_some_raise. eapply Exists_impl; [exact Hempty|].
    intros a Ha. exists IndexError. unfold last_is_not_stay_in. rewrite Ha. reflexivity. }
  destruct Hin as [e1 Hin], Hout as [e2 Hout].
  unfold get_stay_in, get_go_out, MainModel_get_stay_in_number,
    MainModel_get_stay_out_number.
  rewrite Hin, Hout. repeat split.
Qed.

Lemma one_empty_history_zeroes_counts_witness :
  map (fun a => length (action_done a)) (schedule_agents half_acted_model) = [1; 0]
  /\ get_stay_in half_acted_model = Return 0
  /\ get_go_out half_acted_model = Return 0
  /\ MainModel_get_stay_in_number half_acted_model = Return 0
  /\ MainModel_get_stay_out_number half_acted_model = Return 0.
Proof.
  split; [vm_compute; reflexivity|].
  apply one_empty_history_zeroes_counts.
  vm_compute. apply Exists_cons_tl. apply Exists_cons_hd. reflexivity.
Defined.

Lemma Res_bind_Return {A B} (f : A -> Res B) (x : A) : mbind f (Return x) = f x.
Proof. reflexivity. Qed.

Lemma foldM_ext {A S} (f g : S -> A -> Res S) (acc : S) (l : list A) :
  (forall s a, f s a = g s a) -> foldM f acc l = foldM g acc l.
Proof.
  intros Hfg. revert acc. induction l as [|a l IH]; intros acc; [reflexivity|].
  cbn [foldM]. rewrite Hfg. destruct (g acc a); [apply IH | reflexivity].
Qed.

Lemma collectM_all_return {A B} (f : A -> Res B) (l : list A) (bs : list B) :
  Forall2 (fun a b => f a = Return b) l bs -> collectM f l = Return bs.
Proof.
  induction 1 as [|a b l bs Hab _ IH]; [reflexivity|].
  cbn [collectM]. rewrite Hab, IH. reflexivity.
Qed.

Lemma collectM_some_raise {A B} (f : A -> Res B) (P : Exception -> Prop)
    (l : list A) :
  (forall a e, f a = Raise e -> P e) ->
  Exists (fun a => exists e, f a = Raise e) l ->
  exists e, collectM f l = Raise e /\ P e.
Proof.
  intros HP. induction 1 as [a l [e He]|a l _ [e [IH HPe]]].
  - exists e. cbn [collectM]. rewrite He. split; [reflexivity | eauto].
  - cbn [collectM]. destruct (f a) as [b|e'] eqn:Hfa.
    + exists e. change (mbind ?g (Return ?x)) with (g x). cbn beta.
      rewrite IH. split; [reflexivity | exact HPe].
    + exists e'. split; [reflexivity | eauto].
Qed.

Lemma collectM_length {A B} (f : A -> Res B) (l : list A) (bs : list B) :
  collectM f l = Return bs -> length bs = length l.
Proof.
  revert bs. induction l as [|a l IH]; intros bs; cbn [collectM].
  - intros [= <-]. reflexivity.
  - destruct (f a) as [b|e]; [|discriminate].
    change (mbind ?g (Return ?x)) with (g x). cbn beta.
    destruct (collectM f l) as [rest|e]; [|discriminate].
    intros [= <-]. cbn [length]. f_equal. apply IH. reflexivity.
Qed.

(** The loop shared by the two probability averages: it gathers one
    value per agent, stops at the first agent whose value raises, and
    leaves the last index in [i]. *)
Lemma probability_loop (f : MainAgent -> Res float) (l : list MainAgent)
    (k : nat) (acc : list PyNum) (oi : option nat) :
  foldM (fun '(acc, _) '(i, a) =>
           p ← f a; Return (acc ++ [PyFloat p], Some i))
        (acc, oi) (imap (fun i a => (k + i, a)) l)
  = (ps ← collectM f l;
     Return (acc ++ map PyFloat ps,
             match l with [] => oi | _ :: _ => Some (k + length l - 1) end)).
Proof.
  revert k acc oi. induction l as [|a l IH]; intros k acc oi.
  - cbn. rewrite app_nil_r. reflexivity.
  - cbn [imap foldM collectM]. destruct (f a) as [p|e]; [|reflexivity].
    rewrite !Res_bind_Return.
    rewrite (imap_ext _ (fun i a => (S k + i, a)) l)
      by (intros; cbn; f_equal; lia).
    rewrite IH. destruct (collectM f l) as [ps|e]; [|reflexivity].
    rewrite !Res_bind_Return.
    cbn [map]. rewrite <- app_assoc. cbn [app length]. do 2 f_equal.
    destruct l; cbn [length]; f_equal; lia.
Qed.

Lemma divide_by_last_index (values : list PyNum) (n : nat) :
  length values = n ->
  (i ← local_var (match n with 0 => None | S _ => Some (0 + n - 1) end);
   py_truediv (py_sum values) (PyInt (Z.of_nat i)))
  = sum_over_last_index values.
Proof.
  intros Hlen. unfold sum_over_last_index. rewrite Hlen.
  destruct n as [|[|k]]; [reflexivity | reflexivity |].
  replace (0 + S (S k) - 1) with (S k) by lia. reflexivity.
Qed.

Lemma average_of_loop (f : MainAgent -> Res float) (l : list MainAgent) :
  ('(values, i) ←
     foldM (fun '(acc, _) '(i, a) =>
              p ← f a; Return (acc ++ [PyFloat p], Some i))
           ([], None) (enumerate l);
   let total := py_sum values in
   i ← local_var i;
   py_truediv total (PyInt (Z.of_nat i)))
  = (ps ← collectM f l; sum_over_last_index (map PyFloat ps)).
Proof.
  unfold enumerate.
  rewrite (imap_ext pair (fun i a => (0 + i, a)) l) by reflexivity.
  rewrite probability_loop.
  destruct (collectM f l) as [ps|e] eqn:Hps; [|reflexivity].
  change (mbind ?g (Return ?x)) with (g x). cbn beta iota zeta.
  rewrite app_nil_l. apply collectM_length in Hps.
  rewrite <- (divide_by_last_index (map PyFloat ps) (length l))
    by (rewrite length_map; exact Hps).
  destruct l; reflexivity.
Qed.

Lemma get_average_stay_in_loop (m : MainModel) :
  get_average_stay_in m
  = (ps ← collectM (fun a => getitem (action_prob a) "Stay In") (schedule_agents m);
     sum_over_last_index (map PyFloat ps)).
Proof. unfold get_average_stay_in. apply average_of_loop. Qed.

Lemma get_average_go_out_loop (m : MainModel) :
  get_average_go_out m
  = (ps ← collectM go_out_prob (schedule_agents m);
     sum_over_last_index (map PyFloat ps)).
Proof.
  unfold get_average_go_out. rewrite <- average_of_loop.
  f_equal. apply foldM_ext. intros [acc oi] [i a]. unfold go_out_prob.
  destruct (getitem (action_prob a) "Party"); [|reflexivity].
  destruct (getitem (action_prob a) "Help elderly"); [|reflexivity].
  destruct (getitem (action_prob a) "Buy grocery"); reflexivity.
Qed.

(** X4. When every scheduled agent has a "Stay In" probability,
    [get_average_stay_in] depends on the population only through its
    size: unbound loop variable on none, division by zero on one, and on
    two or more the sum of the probabilities over the population less
    one. *)
Theorem get_average_stay_in_by_size (m : MainModel) (ps : list float) :
  Forall2 (fun a p => action_prob a !! "Stay In" = Some p) (schedule_agents m) ps ->
  get_average_stay_in m = sum_over_last_index (map PyFloat ps).
Proof.
  intros Hps. rewrite get_average_stay_in_loop.
  rewrite (collectM_all_return _ _ ps); [reflexivity|].
  eapply Forall2_impl; [exact Hps|].
  intros a p Hp. unfold getitem. rewrite Hp. reflexivity.
Qed.

Lemma get_average_stay_in_by_size_witness :
  get_average_stay_in two_agent_model
  = Return (PyFloat (to_float (py_sum [PyFloat 0.25; PyFloat 0.25])
                     / float_of_Z 1)).
Proof.
  apply (get_average_stay_in_by_size two_agent_model [0.25; 0.25]%float).
  vm_compute. repeat constructor.
Defined.

(** X5. Likewise for [get_average_go_out], over the sums of the three
    go-out probabilities of each agent. *)
Theorem get_average_go_out_by_size (m : MainModel) (ps : list float) :
  Forall2 (fun a p => go_out_prob a = Return p) (schedule_agents m) ps ->
  get_average_go_out m = sum_over_last_index (map PyFloat ps).
Proof.
  intros Hps. rewrite get_average_go_out_loop.
  rewrite (collectM_all_return _ _ ps); [reflexivity | exact Hps].
Qed.

Lemma get_average_go_out_by_size_witness :
  get_average_go_out two_agent_model
  = Return (PyFloat (to_float (py_sum [PyFloat 0.75; PyFloat 0.75])
                     / float_of_Z 1)).
Proof.
  apply (get_average_go_out_by_size two_agent_model [0.75; 0.75]%float).
  vm_compute. repeat constructor.
Defined.

(** X6. A scheduled agent without a "Stay In" probability makes
    [get_average_stay_in] raise KeyError for that key, whatever the size
    of the population; an agent without one of the three go-out
    probabilities makes [get_average_go_out] raise KeyError for one of
    those keys. *)
Theorem averages_raise_on_missing_key (m : MainModel) :
  (Exists (fun a => action_prob a !! "Stay In" = None) (schedule_agents m) ->
   get_average_stay_in m = Raise (KeyError "Stay In"))
  /\ (Exists (fun a => action_prob a !! "Party" = None
                       \/ action_prob a !! "Help elderly" = None
                       \/ action_prob a !! "Buy grocery" = None) (schedule_agents m) ->
      exists key, key ∈ ["Party"; "Help elderly"; "Buy grocery"]
                  /\ get_average_go_out m = Raise (KeyError key)).
Proof.
  split.
  - intros Hmissing. rewrite get_average_stay_in_loop.
    destruct (collectM_some_raise
                (fun a => getitem (action_prob a) "Stay In")
                (fun e => e = KeyError "Stay In") (schedule_agents m))
      as (e & -> & ->); [| |reflexivity].
    + intros a e. unfold getitem. destruct (action_prob a !! "Stay In"); congruence.
    + eapply Exists_impl; [exact Hmissing|]. intros a Ha.
      exists (KeyError "Stay In"). unfold getitem. rewrite Ha. reflexivity.
  - intros Hmissing. rewrite get_average_go_out_loop.
    destruct (collectM_some_raise go_out_prob
                (fun e => exists key, key ∈ ["Party"; "Help elderly"; "Buy grocery"]
                                      /\ e = KeyError key) (schedule_agents m))
      as (e & -> & key & Hkey & ->); [| |exists key; split; [exact Hkey|reflexivity]].
    + intros a e. unfold go_out_prob, getitem.
      destruct (action_prob a !! "Party"); cbn.
      2:{ intros [= <-]. exists "Party". split; [set_solver|reflexivity]. }
      destruct (action_prob a !! "Help elderly"); cbn.
      2:{ intros [= <-]. exists "Help elderly". split; [set_solver|reflexivity]. }
      destruct (action_prob a !! "Buy grocery"); cbn; [discriminate|].
      intros [= <-]. exists "Buy grocery". split; [set_solver|reflexivity].
    + eapply Exists_impl; [exact Hmissing|]. intros a Ha.
      unfold go_out_prob, getitem.
      destruct (action_prob a !! "Party") eqn:H1; cbn; [|eauto].
      destruct (action_prob a !! "Help elderly") eqn:H2; cbn; [|eauto].
      destruct (action_prob a !! "Buy grocery") eqn:H3; cbn; [|eauto].
      destruct Ha as [Ha|[Ha|Ha]]; congruence.
Qed.

Lemma averages_raise_on_missing_key_witness :
  get_average_stay_in (without_prob 1 "Stay In" two_agent_model)
  = Raise (KeyError "Stay In")
  /\ exists key, key ∈ ["Party"; "Help elderly"; "Buy grocery"]
     /\ get_average_go_out (without_prob 0 "Help elderly" two_agent_model)
        = Raise (KeyError key).
Proof.
  split.
  - apply (proj1 (averages_raise_on_missing_key
                    (without_prob 1 "Stay In" two_agent_model))).
    vm_compute. apply Exists_cons_tl. apply Exists_cons_hd. reflexivity.
  - apply (proj2 (averages_raise_on_missing_key
                    (without_prob 0 "Help elderly" two_agent_model))).
    vm_compute. apply Exists_cons_hd. right. left. reflexivity.
Defined.

Lemma collectM_pure {A B} (f : A -> B) (l : list A) :
  collectM (fun a => Return (f a)) l = Return (map f l).
Proof.
  induction l as [|a l IH]; [reflexivity|].
  cbn [collectM map]. rewrite Res_bind_Return, IH. reflexivity.
Qed.

(** X7. The method [get_avg_aspiration] never raises: it returns 0 on a
    population of none or one (the handler catches the unbound loop
    variable and the division by zero), and on two or more the sum of the
    aspirations over the population less one. *)
Theorem get_avg_aspiration_by_size (m : MainModel) :
  let values := map (fun a => PyFloat (aspiration a)) (schedule_agents m) in
  MainModel_get_avg_aspiration m
  = Return (match length values with
            | 0 | 1 => PyInt 0
            | S (S k) =>
                PyFloat (to_float (py_sum values) / float_of_Z (Z.of_nat (S k)))
            end).
Proof.
  intros values. unfold values. rewrite length_map.
  destruct (schedule_agents m) as [|a [|a' l]] eqn:Hagents.
  - unfold MainModel_get_avg_aspiration. rewrite Hagents. reflexivity.
  - unfold MainModel_get_avg_aspiration. rewrite Hagents. reflexivity.
  - rewrite <- Hagents.
    rewrite (MainModel_get_avg_aspiration_divisor m (length l))
      by (rewrite Hagents; reflexivity).
    rewrite Hagents. reflexivity.
Qed.

Lemma get_average_aspiration_loop (l : list MainAgent) :
  ('(values, _) ←
     foldM (fun '(acc, _) '(i, a) =>
              Return (acc ++ [PyFloat (aspiration a)], Some i))
           ([], None) (enumerate l);
   Return (py_sum values))
  = Return (py_sum (map (fun a => PyFloat (aspiration a)) l)).
Proof.
  unfold enumerate.
  rewrite (imap_ext pair (fun i a => (0 + i, a)) l) by reflexivity.
  change (foldM _ ([], None) ?k)
    with (foldM (fun '(acc, _) '(i, a) =>
                   p ← Return (aspiration a);
                   Return (acc ++ [PyFloat p], Some i))
                (([] : list PyNum), (None : option nat)) k).
  rewrite probability_loop, collectM_pure, !Res_bind_Return.
  rewrite app_nil_l, map_map. reflexivity.
Qed.

(** X8. The function [get_average_aspiration] never raises and never
    divides: it returns the sum of the aspirations of the scheduled
    agents, which on an empty schedule is the int 0. *)
Theorem get_average_aspiration_is_sum (m : MainModel) :
  get_average_aspiration m
  = Return (py_sum (map (fun a => PyFloat (aspiration a)) (schedule_agents m)))
  /\ py_sum (map (fun a => PyFloat (aspiration a)) []) = PyInt 0.
Proof.
  split; [|reflexivity].
  unfold get_average_aspiration. apply get_average_aspiration_loop.
Qed.

(** * Further properties of the data collection *)

Lemma append_var_other (var : string) (v : PyNum) (vars : list (string * list PyNum)) :
  var ∉ map fst vars -> append_var var v vars = vars.
Proof.
  unfold append_var. induction vars as [|[k c] vars IH]; intros Hnot; [reflexivity|].
  cbn [map fst snd] in *. apply not_elem_of_cons in Hnot as [Hne Hnot].
  destruct (String.eqb_spec k var) as [->|_]; [contradiction|].
  f_equal. apply IH. exact Hnot.
Qed.

Lemma append_var_here (var : string) (v : PyNum) (c : list PyNum)
    (pre post : list (string * list PyNum)) :
  var ∉ map fst pre -> var ∉ map fst post ->
  append_var var v (pre ++ (var, c) :: post) = pre ++ (var, c ++ [v]) :: post.
Proof.
  intros Hpre Hpost.
  pose proof (append_var_other var v pre Hpre) as Epre.
  pose proof (append_var_other var v post Hpost) as Epost.
  unfold append_var in *. rewrite map_app. cbn [map fst snd].
  rewrite Epre, Epost, String.eqb_refl. reflexivity.
Qed.

(** The reporter loop, when every reporter returns: each column receives
    the value of its reporter, in order. *)
Lemma collect_model_vars_all_return (m : MainModel)
    (reps : list (string * (MainModel -> Res PyNum))) :
  forall (pre vars : list (string * list PyNum)) (vals : list PyNum),
    NoDup (map fst reps) ->
    (forall k, k ∈ map fst pre -> k ∉ map fst reps) ->
    map fst vars = map fst reps ->
    Forall2 (fun rep v => snd rep m = Return v) reps vals ->
    collect_model_vars reps m (pre ++ vars)
    = (Return tt, pre ++ zip_with column_with vars vals).
Proof.
  induction reps as [|[k r] reps IH]; intros pre vars vals Hnodup Hpre Hkeys Hvals.
  - destruct vars; [|discriminate]. inversion Hvals. reflexivity.
  - destruct vars as [|[k' c] vars]; [discriminate|].
    cbn [map fst] in Hkeys. injection Hkeys as -> Hkeys.
    inversion Hvals as [|? v ? vals' Hv Hvals']; subst. cbn [snd] in Hv.
    cbn [map fst] in Hnodup. apply NoDup_cons in Hnodup as [Hk Hnodup].
    cbn [collect_model_vars]. rewrite Hv.
    rewrite append_var_here.
    + replace (pre ++ (k, c ++ [v]) :: vars)
        with ((pre ++ [(k, c ++ [v])]) ++ vars) by (rewrite <- app_assoc; reflexivity).
      rewrite (IH _ vars vals' Hnodup); [| |exact Hkeys|exact Hvals'].
      * rewrite <- app_assoc. reflexivity.
      * intros k' Hk'. rewrite map_app in Hk'. apply elem_of_app in Hk' as [Hk'|Hk'].
        -- specialize (Hpre k' Hk'). cbn [map fst] in Hpre.
           apply not_elem_of_cons in Hpre as [_ Hpre]. exact Hpre.
        -- cbn in Hk'. apply list_elem_of_singleton in Hk' as ->. exact Hk.
    + intros Hin. apply (Hpre k Hin). cbn [map fst]. apply list_elem_of_here.
    + rewrite Hkeys. exact Hk.
Qed.

(** The reporter loop, when some reporter raises after others returned:
    the exception is that of the first reporter that raises, and only the
    columns before it have received a value. *)
Lemma collect_model_vars_first_raise (m : MainModel)
    (reps1 : list (string * (MainModel -> Res PyNum)))
    (k : string) (r : MainModel -> Res PyNum)
    (reps2 : list (string * (MainModel -> Res PyNum))) (e : Exception) :
  forall (pre vars : list (string * list PyNum)) (vals : list PyNum),
    NoDup (map fst (reps1 ++ (k, r) :: reps2)) ->
    (forall k', k' ∈ map fst pre -> k' ∉ map fst (reps1 ++ (k, r) :: reps2)) ->
    map fst vars = map fst (reps1 ++ (k, r) :: reps2) ->
    Forall2 (fun rep v => snd rep m = Return v) reps1 vals ->
    r m = Raise e ->
    collect_model_vars (reps1 ++ (k, r) :: reps2) m (pre ++ vars)
    = (Raise e,
       pre ++ zip_with column_with (take (length reps1) vars) vals
           ++ drop (length reps1) vars).
Proof.
  induction reps1 as [|[k1 r1] reps1 IH]; intros pre vars vals Hnodup Hpre Hkeys Hvals Hr.
  - inversion Hvals; subst. cbn [app collect_model_vars length take drop zip_with].
    rewrite Hr. reflexivity.
  - destruct vars as [|[k' c] vars]; [discriminate|].
    cbn [app map fst] in Hkeys, Hnodup, Hpre. injection Hkeys as -> Hkeys.
    inversion Hvals as [|? v ? vals' Hv Hvals']; subst. cbn [snd] in Hv.
    apply NoDup_cons in Hnodup as [Hk Hnodup].
    cbn [app collect_model_vars]. rewrite Hv.
    rewrite append_var_here.
    + replace (pre ++ (k1, c ++ [v]) :: vars)
        with ((pre ++ [(k1, c ++ [v])]) ++ vars) by (rewrite <- app_assoc; reflexivity).
      rewrite (IH _ vars vals' Hnodup); [| |exact Hkeys|exact Hvals'|exact Hr].
      * rewrite <- app_assoc. reflexivity.
      * intros k' Hk'. rewrite map_app in Hk'. apply elem_of_app in Hk' as [Hk'|Hk'].
        -- specialize (Hpre k' Hk').
           apply not_elem_of_cons in Hpre as [_ Hpre]. exact Hpre.
        -- cbn in Hk'. apply list_elem_of_singleton in Hk' as ->. exact Hk.
    + intros Hin. apply (Hpre k1 Hin). apply list_elem_of_here.
    + rewrite Hkeys. exact Hk.
Qed.

Lemma model_reporters_NoDup : NoDup (map fst model_reporters).
Proof. apply (bool_decide_unpack _). vm_compute. exact I. Qed.

Lemma counts_always_return (m : MainModel) :
  (exists n, get_stay_in m = Return n) /\ (exists n, get_go_out m = Return n).
Proof.
  unfold get_stay_in, get_go_out, try_except. split.
  - destruct (_ ≫= _) as [n|e]; eauto.
  - destruct (_ ≫= _) as [n|e]; eauto.
Qed.

(** The eight reporters before the two probability averages return. *)
Lemma first_reporters_return (m : MainModel) :
  exists vals : list PyNum,
    length vals = 8
    /\ Forall2 (fun rep v => snd rep m = Return v) (take 8 model_reporters) vals.
Proof.
  destruct (counts_always_return m) as [[si Hsi] [go Hgo]].
  exists [PyInt (Z.of_nat (get_infected_number m));
          PyInt (Z.of_nat (get_recovered_number m));
          PyInt (Z.of_nat (get_dead_number m));
          PyInt (Z.of_nat si); PyInt (Z.of_nat go);
          PyInt (Z.of_nat (get_susceptible_number m));
          py_sum (map (fun a => PyFloat (aspiration a)) (schedule_agents m));
          py_sum (map (fun a => PyFloat (aspiration a)) (schedule_agents m))].
  split; [reflexivity|].
  unfold model_reporters. cbn [take].
  repeat match goal with |- Forall2 _ _ _ => constructor end; cbn [snd];
    unfold get_average_aspiration;
      rewrite ?Hsi, ?Hgo, ?get_average_aspiration_loop; reflexivity.
Qed.

(** X9. On a collector holding the ten columns of [__init__], a
    collection succeeds as soon as the two probability averages return -
    no other reporter can raise - and it appends to each column the value
    of its reporter and records one agent table, keyed by the scheduler's
    step count. *)
Theorem collect_appends_one_row (m : MainModel) (dc : DataCollector) (s g : PyNum) :
  map fst (model_vars dc) = map fst model_reporters ->
  get_average_stay_in m = Return s ->
  get_average_go_out m = Return g ->
  exists si go,
    get_stay_in m = Return si /\ get_go_out m = Return go
    /\ DataCollector_collect m dc
       = (Return tt,
          mkDataCollector
            (zip_with column_with (model_vars dc)
               [PyInt (Z.of_nat (get_infected_number m));
                PyInt (Z.of_nat (get_recovered_number m));
                PyInt (Z.of_nat (get_dead_number m));
                PyInt (Z.of_nat si); PyInt (Z.of_nat go);
                PyInt (Z.of_nat (get_susceptible_number m));
                py_sum (map (fun a => PyFloat (aspiration a)) (schedule_agents m));
                py_sum (map (fun a => PyFloat (aspiration a)) (schedule_agents m));
                s; g])
            (agent_records dc ++ [(steps (schedule m), record_agents m)])).
Proof.
  intros Hkeys Hs Hg.
  destruct (counts_always_return m) as [[si Hsi] [go Hgo]].
  exists si, go. split; [exact Hsi|]. split; [exact Hgo|].
  assert (Hcollect :
    collect_model_vars model_reporters m ([] ++ model_vars dc)
    = (Return tt,
       [] ++ zip_with column_with (model_vars dc)
         [PyInt (Z.of_nat (get_infected_number m));
          PyInt (Z.of_nat (get_recovered_number m));
          PyInt (Z.of_nat (get_dead_number m));
          PyInt (Z.of_nat si); PyInt (Z.of_nat go);
          PyInt (Z.of_nat (get_susceptible_number m));
          py_sum (map (fun a => PyFloat (aspiration a)) (schedule_agents m));
          py_sum (map (fun a => PyFloat (aspiration a)) (schedule_agents m));
          s; g])).
  { apply collect_model_vars_all_return;
      [apply model_reporters_NoDup | | exact Hkeys |].
    - intros k Hk. cbn in Hk. apply elem_of_nil in Hk. contradiction.
    - unfold model_reporters.
      repeat match goal with |- Forall2 _ _ _ => constructor end; cbn [snd];
        unfold get_average_aspiration;
      rewrite ?Hsi, ?Hgo, ?get_average_aspiration_loop;
        first [reflexivity | assumption]. }
  cbn [app] in Hcollect. unfold DataCollector_collect. rewrite Hcollect.
  reflexivity.
Qed.

Lemma collect_appends_one_row_witness :
  map (fun col => length (snd col))
      (model_vars (DataCollector_collect two_agent_model DataCollector_new).2)
  = [1; 1; 1; 1; 1; 1; 1; 1; 1; 1]
  /\ length (agent_records (DataCollector_collect two_agent_model DataCollector_new).2) = 1.
Proof.
  destruct (collect_appends_one_row two_agent_model DataCollector_new
              (PyFloat 0.5) (PyFloat 1.5))
    as (si & go & _ & _ & ->);
    [reflexivity | vm_compute; reflexivity | vm_compute; reflexivity |].
  split; reflexivity.
Defined.

(** X10. On a collector holding the ten columns of [__init__], when the
    stay-in average raises, the collection raises the same exception
    after the eight reporters before it have each appended their value:
    the first eight columns are one longer, the last two are not, and no
    agent table is recorded. *)
Theorem collect_failure_leaves_ragged_table (m : MainModel) (dc : DataCollector)
    (e : Exception) :
  map fst (model_vars dc) = map fst model_reporters ->
  get_average_stay_in m = Raise e ->
  exists vals,
    length vals = 8
    /\ DataCollector_collect m dc
       = (Raise e,
          mkDataCollector
            (zip_with column_with (take 8 (model_vars dc)) vals
             ++ drop 8 (model_vars dc))
            (agent_records dc)).
Proof.
  intros Hkeys Hraise.
  destruct (first_reporters_return m) as (vals & Hlen & Hvals).
  exists vals. split; [exact Hlen|].
  pose proof (collect_model_vars_first_raise m (take 8 model_reporters)
                "Average Stay In" get_average_stay_in
                [("Average Get Out", get_average_go_out)] e
                [] (model_vars dc) vals model_reporters_NoDup) as Hcollect.
  cbn [app] in Hcollect.
  unfold DataCollector_collect.
  change model_reporters
    with (take 8 model_reporters
          ++ ("Average Stay In", get_average_stay_in)
             :: [("Average Get Out", get_average_go_out)]).
  rewrite Hcollect; [reflexivity | | exact Hkeys | exact Hvals | exact Hraise].
  intros k Hk. cbn in Hk. apply elem_of_nil in Hk. contradiction.
Qed.

Lemma collect_failure_leaves_ragged_table_witness :
  map (fun col => length (snd col))
      (model_vars (DataCollector_collect empty_model DataCollector_new).2)
  = [1; 1; 1; 1; 1; 1; 1; 1; 0; 0]
  /\ agent_records (DataCollector_collect empty_model DataCollector_new).2 = [].
Proof.
  destruct (collect_failure_leaves_ragged_table empty_model DataCollector_new
              UnboundLocalError)
    as (vals & Hlen & ->); [reflexivity | vm_compute; reflexivity |].
  do 8 (destruct vals as [|? vals]; [discriminate Hlen|]).
  destruct vals; [|discriminate Hlen].
  split; reflexivity.
Defined.

Lemma collect_model_vars_raises (m : MainModel)
    (reps1 : list (string * (MainModel -> Res PyNum)))
    (k : string) (r : MainModel -> Res PyNum)
    (reps2 : list (string * (MainModel -> Res PyNum)))
    (vals : list PyNum) (e : Exception) :
  Forall2 (fun rep v => snd rep m = Return v) reps1 vals ->
  r m = Raise e ->
  forall vars, (collect_model_vars (reps1 ++ (k, r) :: reps2) m vars).1 = Raise e.
Proof.
  intros Hvals Hr. induction Hvals as [|[k1 r1] v reps1 vals Hv _ IH]; intros vars.
  - cbn [app collect_model_vars]. rewrite Hr. reflexivity.
  - cbn [app collect_model_vars]. cbn [snd] in Hv. rewrite Hv. apply IH.
Qed.

(** With at most one scheduled agent the stay-in average raises. *)
Lemma get_average_stay_in_tiny (m : MainModel) :
  length (schedule_agents m) <= 1 ->
  exists e, get_average_stay_in m = Raise e.
Proof.
  intros Htiny. rewrite get_average_stay_in_loop.
  destruct (collectM _ (schedule_agents m)) as [ps|e] eqn:Hps; [|eauto].
  apply collectM_length in Hps. rewrite Res_bind_Return.
  unfold sum_over_last_index. rewrite length_map, Hps.
  destruct (length (schedule_agents m)) as [|[|n]]; [eauto | eauto | lia].
Qed.

(** X11. With at most one scheduled agent, [step] never returns: it
    raises while collecting, before the scheduler pass and the two
    checks, having changed nothing but the step counter and the
    collector. *)
Theorem step_raises_on_tiny_population (C : Collaborators) (w : World) :
  length (schedule_agents (model w)) <= 1 ->
  exists e dc,
    step w
    = (Raise e,
       mkWorld
         (set_datacollector dc
            (set_step_counter (step_counter (model w) + 1) (model w)))
         (np_random w)).
Proof.
  intros Htiny. rewrite step_unfold. unfold update_self. cbn [snd].
  unfold collect. cbn [model np_random].
  set (m1 := set_step_counter (step_counter (model w) + 1) (model w)).
  destruct (get_average_stay_in_tiny m1 Htiny) as [e He].
  destruct (first_reporters_return m1) as (vals & _ & Hvals).
  pose proof (collect_model_vars_raises m1 (take 8 model_reporters)
                "Average Stay In" get_average_stay_in
                [("Average Get Out", get_average_go_out)] vals e Hvals He
                (model_vars (datacollector m1))) as Hcollect.
  unfold DataCollector_collect.
  change model_reporters
    with (take 8 model_reporters
          ++ ("Average Stay In", get_average_stay_in)
             :: [("Average Get Out", get_average_go_out)]).
  destruct (collect_model_vars _ m1 _) as [r vars]. cbn [fst] in Hcollect.
  subst r. eexists _, _. reflexivity.
Qed.

Lemma step_raises_on_tiny_population_witness :
  exists e dc,
    @step sample_collaborators (sample_world one_agent_model)
    = (Raise e,
       mkWorld
         (set_datacollector dc
            (set_step_counter (step_counter one_agent_model + 1) one_agent_model))
         (constant_source 0.5)).
Proof.
  apply (step_raises_on_tiny_population sample_collaborators
           (sample_world one_agent_model)).
  vm_compute. lia.
Defined.

(** * Further properties of [step] *)

Lemma collect_changes_collector_only (w : World) :
  exists dc, (collect w).2 = mkWorld (set_datacollector dc (model w)) (np_random w).
Proof.
  unfold collect.
  destruct (DataCollector_collect (model w) (datacollector (model w))) as [r dc].
  exists dc. reflexivity.
Qed.

Lemma end_of_step_step_counter (ratio : PyNum) (m : MainModel) :
  step_counter (end_of_step ratio m) = step_counter m.
Proof.
  unfold end_of_step. destruct (py_gt ratio _); destruct (Nat.eqb _ _); reflexivity.
Qed.

(** What a returning [step] went through: the model the scheduler pass
    started from differs from the initial one by the counter and the
    collector only. *)
Lemma after_pass_start {C : Collaborators} (w w3 : World) :
  after_pass w w3 ->
  exists dc w2,
    w2 = mkWorld
           (set_datacollector dc
              (set_step_counter (step_counter (model w) + 1) (model w)))
           (np_random w)
    /\ schedule_step w2 = (Return tt, w3).
Proof.
  intros (w2 & Hcollect & Hpass). unfold update_self in Hcollect. cbn [snd] in Hcollect.
  match type of Hcollect with
  | collect ?w1 = _ => destruct (collect_changes_collector_only w1) as [dc Hdc]
  end.
  rewrite Hcollect in Hdc. cbn [snd model np_random] in Hdc.
  exists dc, w2. split; [exact Hdc | exact Hpass].
Qed.

(** X12. When [step] returns, and the agents' code leaves [lockdown]
    alone, the flag afterwards is the flag before or the breach of the
    threshold by the infected ratio: it is set on a breach and only on a
    breach. *)
Theorem lockdown_set_only_on_breach (C : Collaborators) :
  (forall w, lockdown (model (schedule_step w).2) = lockdown (model w)) ->
  forall w w' : World,
    step w = (Return tt, w') ->
    exists ratio,
      py_truediv (PyInt (Z.of_nat (MainModel_get_infection_number (model w'))))
                 (PyInt (Z.of_nat (total_population (model w')))) = Return ratio
      /\ lockdown (model w')
         = lockdown (model w)
           || py_gt ratio (PyFloat (government_action_threshold (model w'))).
Proof.
  intros Hpass w w' Hstep.
  apply step_returns in Hstep as (w3 & ratio & Hafter & Hratio & ->).
  apply after_pass_start in Hafter as (dc & w2 & -> & Hsched).
  specialize (Hpass (mkWorld
                       (set_datacollector dc
                          (set_step_counter (step_counter (model w) + 1) (model w)))
                       (np_random w))).
  rewrite Hsched in Hpass. cbn [snd model lockdown set_datacollector] in Hpass.
  cbn [model].
  destruct (end_of_step_reads ratio (model w3)) as (Hg & Ha & _ & Htot & Hthr).
  exists ratio. split.
  - unfold MainModel_get_infection_number in *.
    rewrite (count_grid_reads _ _ _ Hg Ha), Htot. exact Hratio.
  - rewrite end_of_step_lockdown, Hthr, Hpass. reflexivity.
Qed.

Lemma lockdown_set_only_on_breach_witness :
  let w := sample_world two_clean_model in
  lockdown (model (@step sample_collaborators w).2) = false.
Proof.
  intros w.
  assert (E : (@step sample_collaborators w).1 = Return tt) by (vm_compute; reflexivity).
  assert (Hstep : @step sample_collaborators w
                  = (Return tt, (@step sample_collaborators w).2))
    by (rewrite <- E; apply surjective_pairing).
  destruct (lockdown_set_only_on_breach sample_collaborators
              (fun w0 => proj1 (idle_pass_reads w0)) w _ Hstep)
    as (ratio & Hratio & ->).
  assert (Hzero : ratio = PyFloat 0).
  { assert (Hval : py_truediv
                     (PyInt (Z.of_nat (MainModel_get_infection_number
                                         (model (@step sample_collaborators w).2))))
                     (PyInt (Z.of_nat (total_population
                                         (model (@step sample_collaborators w).2))))
                   = Return (PyFloat 0)) by (vm_compute; reflexivity).
    rewrite Hval in Hratio. injection Hratio as <-. reflexivity. }
  rewrite Hzero. vm_compute. reflexivity.
Defined.

(** X13. When [step] returns, and the agents' code leaves [running]
    alone, the flag afterwards is the flag before unless the recovered,
    dead and susceptible counts add up to the population: [step] clears
    it then and only then, and never sets it. *)
Theorem running_cleared_only_on_eradication (C : Collaborators) :
  (forall w, running (model (schedule_step w).2) = running (model w)) ->
  forall w w' : World,
    step w = (Return tt, w') ->
    running (model w')
    = running (model w)
      && negb (Nat.eqb (MainModel_get_recovered_number (model w')
                        + MainModel_get_dead_number (model w')
                        + MainModel_get_susceptible_number (model w'))
                       (total_population (model w'))).
Proof.
  intros Hpass w w' Hstep.
  apply step_returns in Hstep as (w3 & ratio & Hafter & _ & ->).
  apply after_pass_start in Hafter as (dc & w2 & -> & Hsched).
  specialize (Hpass (mkWorld
                       (set_datacollector dc
                          (set_step_counter (step_counter (model w) + 1) (model w)))
                       (np_random w))).
  rewrite Hsched in Hpass. cbn [snd model running set_datacollector] in Hpass.
  cbn [model].
  destruct (end_of_step_reads ratio (model w3)) as (Hg & Ha & Hdead & Htot & _).
  unfold MainModel_get_recovered_number, MainModel_get_susceptible_number,
    MainModel_get_dead_number.
  rewrite !(count_grid_reads _ _ _ Hg Ha), Hdead, Htot.
  rewrite end_of_step_running, Hpass. reflexivity.
Qed.

Lemma running_cleared_only_on_eradication_witness :
  let w := sample_world two_agent_model in
  running (model (@step sample_collaborators w).2) = true.
Proof.
  intros w.
  assert (E : (@step sample_collaborators w).1 = Return tt) by (vm_compute; reflexivity).
  assert (Hstep : @step sample_collaborators w
                  = (Return tt, (@step sample_collaborators w).2))
    by (rewrite <- E; apply surjective_pairing).
  rewrite (running_cleared_only_on_eradication sample_collaborators
             (fun w0 => proj1 (proj2 (idle_pass_reads w0))) w _ Hstep).
  vm_compute. reflexivity.
Defined.

(** X14. When the dead counter equals the number of Dead agents on the
    grid and the population equals the number of agents on the grid, the
    termination test of [step] holds exactly when no agent on the grid is
    Infected. *)
Theorem termination_test_means_no_infected (m : MainModel) :
  dead_agents_number m = count_grid DEAD m ->
  total_population m = length (omap (fun r => agents m !! r) (grid_refs m)) ->
  MainModel_get_recovered_number m + MainModel_get_dead_number m
  + MainModel_get_susceptible_number m = total_population m
  <-> MainModel_get_infection_number m = 0.
Proof.
  intros Hdead Htotal.
  unfold MainModel_get_recovered_number, MainModel_get_dead_number,
    MainModel_get_susceptible_number, MainModel_get_infection_number.
  rewrite Hdead, Htotal, !count_grid_refs.
  pose proof (count_state_partition (omap (fun r => agents m !! r) (grid_refs m))).
  lia.
Qed.

Lemma termination_test_means_no_infected_witness :
  MainModel_get_recovered_number two_agent_model
  + MainModel_get_dead_number two_agent_model
  + MainModel_get_susceptible_number two_agent_model
  = total_population two_agent_model
  <-> MainModel_get_infection_number two_agent_model = 0.
Proof.
  apply termination_test_means_no_infected; vm_compute; reflexivity.
Defined.

Lemma step_counter_after_step {C : Collaborators} (w : World) :
  (forall w0, step_counter (model (schedule_step w0).2) = step_counter (model w0)) ->
  step_counter (model (step w).2) = step_counter (model w) + 1.
Proof.
  intros Hpass. rewrite step_unfold. unfold update_self. cbn [snd].
  match goal with
  | |- context [collect ?w1] =>
      destruct (collect_changes_collector_only w1) as [dc Hdc];
      destruct (collect w1) as [r2 w2]
  end.
  cbn [snd model np_random] in Hdc. subst w2.
  destruct r2 as [[]|e]; [|reflexivity].
  match goal with
  | |- context [schedule_step ?w2] =>
      specialize (Hpass w2); destruct (schedule_step w2) as [r3 w3]
  end.
  cbn [snd model] in Hpass.
  destruct r3 as [[]|e]; [|exact Hpass].
  destruct (py_truediv _ _) as [ratio|e]; [|exact Hpass].
  cbn [snd model]. rewrite end_of_step_step_counter. exact Hpass.
Qed.

(** X15. Every call of [step] advances [step_counter] by one, whether
    it returns or raises (the agents' code leaving the counter alone);
    so after [n] calls that all returned the counter has advanced by
    [n].  [step] does not consult [running]: a stopped model still
    counts. *)
Theorem step_counter_counts_calls (C : Collaborators) :
  (forall w, step_counter (model (schedule_step w).2) = step_counter (model w)) ->
  forall w : World,
    step_counter (model (step w).2) = step_counter (model w) + 1
    /\ forall n, (run n w).1 = Return tt ->
                 step_counter (model (run n w).2) = step_counter (model w) + n.
Proof.
  intros Hpass w. split; [apply step_counter_after_step; exact Hpass|].
  intros n. revert w. induction n as [|n IH]; intros w Hrun.
  - cbn. lia.
  - cbn [run] in *. unfold bindM in *.
    pose proof (step_counter_after_step w Hpass) as Hone.
    destruct (step w) as [[[]|e] w']; [|discriminate Hrun].
    cbn [snd] in Hone. rewrite (IH w' Hrun), Hone. lia.
Qed.

Lemma step_counter_counts_calls_witness :
  let w := sample_world two_clean_model in
  running (model (@run sample_collaborators 1 w).2) = false
  /\ step_counter (model (@run sample_collaborators 3 w).2) = 3.
Proof.
  intros w. split; [vm_compute; reflexivity|].
  destruct (step_counter_counts_calls sample_collaborators
              (fun w0 => eq_refl) w) as [_ Hrun].
  rewrite (Hrun 3); [reflexivity | vm_compute; reflexivity].
Defined.

(** * Further properties of the constructor *)

Lemma imap_lengths {A B} (cols : list (list A)) :
  forall f : nat -> list A -> list B,
    (forall x col, length (f x col) = length col) ->
    map length (imap f cols) = map length cols.
Proof.
  induction cols as [|col cols IH]; intros f Hf; [reflexivity|].
  rewrite imap_cons. cbn [map]. rewrite Hf. f_equal. apply IH.
  intros x c. apply Hf.
Qed.

Lemma coord_iter_length (cols : list (list (option nat))) (t : bool) :
  length (coord_iter (mkSingleGrid t cols)) = list_sum (map length cols).
Proof.
  unfold coord_iter. cbn [cells]. rewrite length_concat. f_equal.
  apply imap_lengths. intros x col. apply length_imap.
Qed.

Lemma coord_iter_new_length (w h : Z) (t : bool) :
  length (coord_iter (SingleGrid_new w h t)) = Z.to_nat w * Z.to_nat h.
Proof.
  unfold SingleGrid_new. rewrite coord_iter_length.
  induction (Z.to_nat w) as [|n IH]; [reflexivity|].
  change (list_sum (map length (replicate (S n) (replicate (Z.to_nat h) None))))
    with (length (replicate (Z.to_nat h) (@None nat))
          + list_sum (map length (replicate n (replicate (Z.to_nat h) (@None nat))))).
  rewrite IH, length_replicate. lia.
Qed.

Lemma length_omap_all_some {A B} (f : A -> option B) (l : list A) :
  Forall (fun a => is_Some (f a)) l -> length (omap f l) = length l.
Proof.
  induction 1 as [|a l [b Hb] _ IH]; [reflexivity|].
  rewrite omap_step, Hb. cbn [length]. f_equal. exact IH.
Qed.

Section CellLoop.

Context {C : Collaborators}.

(** The cell loop numbers the agents as it creates them. *)
Lemma init_cell_numbering (a : Args) (x y : nat) (b b' : Building) (np np' : Random) :
  sched_agents (b_schedule b) = seq 0 (b_i b) ->
  (forall r, is_Some (b_agents b !! r) <-> r < b_i b) ->
  init_cell a x y b np = (Return b', np') ->
  sched_agents (b_schedule b') = seq 0 (b_i b')
  /\ (forall r, is_Some (b_agents b' !! r) <-> r < b_i b')
  /\ steps (b_schedule b') = steps (b_schedule b)
  /\ time (b_schedule b') = time (b_schedule b)
  /\ b_i b <= b_i b' <= b_i b + 1.
Proof.
  intros Hsched Hstore. unfold init_cell.
  destruct (random_random (b_random b)) as [u rng].
  destruct (PrimFloat.ltb u (arg_population_density a)).
  - destruct (np_random_choice _ _ np) as [[c|e] n]; [|discriminate].
    destruct (position_agent (b_grid b) (b_i b) (x, y) rng) as [[g p] rng'].
    intros Hb. injection Hb as <- _.
    cbn [b_schedule b_agents b_i schedule_add sched_agents steps time].
    rewrite Hsched. repeat split; try lia.
    + rewrite Nat.add_1_r, seq_S. reflexivity.
    + intros Hsome. destruct (decide (b_i b = r)) as [<-|Hne]; [lia|].
      rewrite lookup_insert_ne in Hsome by exact Hne.
      apply Hstore in Hsome. lia.
    + intros Hlt. destruct (decide (b_i b = r)) as [<-|Hne].
      * rewrite lookup_insert_eq. eauto.
      * rewrite lookup_insert_ne by exact Hne. apply Hstore. lia.
  - intros Hb. injection Hb as <- _.
    cbn [b_schedule b_agents b_i]. repeat split; try lia; try assumption;
      apply Hstore.
Qed.

Lemma init_cells_numbering (a : Args) (coords : list (nat * nat)) :
  forall (b b' : Building) (np np' : Random),
    sched_agents (b_schedule b) = seq 0 (b_i b) ->
    (forall r, is_Some (b_agents b !! r) <-> r < b_i b) ->
    init_cells a coords b np = (Return b', np') ->
    sched_agents (b_schedule b') = seq 0 (b_i b')
    /\ (forall r, is_Some (b_agents b' !! r) <-> r < b_i b')
    /\ steps (b_schedule b') = steps (b_schedule b)
    /\ time (b_schedule b') = time (b_schedule b)
    /\ b_i b' <= b_i b + length coords.
Proof.
  induction coords as [|[x y] coords IH]; intros b b' np np' Hsched Hstore.
  - cbn [init_cells]. intros H. injection H as <- _.
    repeat split; try assumption; try apply Hstore. cbn [length]. lia.
  - cbn [init_cells].
    destruct (init_cell a x y b np) as [[b1|e] n1] eqn:E; [|discriminate].
    destruct (init_cell_numbering _ _ _ _ _ _ _ Hsched Hstore E)
      as (Hsched1 & Hstore1 & Hsteps1 & Htime1 & Hi1).
    intros Hrest.
    destruct (IH _ _ _ _ Hsched1 Hstore1 Hrest)
      as (Hsched' & Hstore' & Hsteps' & Htime' & Hi').
    repeat split; try assumption; try apply Hstore'; try congruence.
    cbn [length]. lia.
Qed.

(** When no variate the source delivers is below the density, the cell
    loop creates nobody and draws once per cell. *)
Lemma init_cells_nobody (a : Args) (coords : list (nat * nat)) :
  forall (b : Building) (np : Random),
    (forall k, PrimFloat.ltb (variates (b_random b) k) (arg_population_density a)
               = false) ->
    init_cells a coords b np
    = (Return (mkBuilding (b_grid b) (b_schedule b) (b_agents b) (b_i b)
                 (mkRandom (variates (b_random b))
                    (consumed (b_random b) + length coords))), np).
Proof.
  induction coords as [|[x y] coords IH]; intros b np Hnone.
  - cbn [init_cells length]. rewrite Nat.add_0_r. destruct b as [g s ag i [v c]].
    reflexivity.
  - cbn [init_cells]. unfold init_cell, random_random. rewrite Hnone.
    rewrite IH by exact Hnone.
    cbn [b_grid b_schedule b_agents b_i b_random variates consumed length].
    rewrite Nat.add_succ_comm. reflexivity.
Qed.

End CellLoop.

(** X16. A constructed model has its agents numbered in creation order:
    the schedule lists the references 0, 1, ..., [total_population] - 1,
    the store holds exactly those, every scheduled reference resolves,
    and the population never exceeds the number of cells; the scheduler
    starts at step 0 and time 0, the model not locked down, running, with
    no dead and no step counted. *)
Theorem constructor_numbers_agents (C : Collaborators) (a : Args)
    (rng np np' : Random) (m : MainModel) :
  MainModel_init a rng np = (Return m, np') ->
  sched_agents (schedule m) = seq 0 (total_population m)
  /\ (forall r, is_Some (agents m !! r) <-> r < total_population m)
  /\ length (schedule_agents m) = total_population m
  /\ total_population m <= Z.to_nat (arg_width a) * Z.to_nat (arg_height a)
  /\ steps (schedule m) = 0 /\ time (schedule m) = 0
  /\ lockdown m = false /\ running m = true
  /\ dead_agents_number m = 0 /\ step_counter m = 0.
Proof.
  intros Hinit. apply init_returns in Hinit as (b & Hcells & ->).
  apply init_cells_numbering in Hcells
    as (Hsched & Hstore & Hsteps & Htime & Hi).
  - cbn [init_fields schedule total_population agents lockdown running
           dead_agents_number step_counter].
    rewrite length_map, coord_iter_new_length in Hi. cbn [b_i] in Hi.
    repeat split; try assumption; try apply Hstore; try lia.
    unfold schedule_agents.
    cbn [init_fields schedule agents]. rewrite Hsched.
    rewrite length_omap_all_some; [apply length_seq|].
    apply Forall_forall. intros r Hr. apply Hstore.
    apply elem_of_seq in Hr. lia.
  - reflexivity.
  - cbn [b_agents b_i]. intros r. rewrite lookup_empty. split.
    + intros [? ?]. discriminate.
    + lia.
Qed.

Lemma constructor_numbers_agents_witness :
  let m := constructed (sample_args 1.5 0.5 2 2) (constant_source 0.5)
             (constant_source 0.25) in
  sched_agents (schedule m) = seq 0 (total_population m)
  /\ (forall r, is_Some (agents m !! r) <-> r < total_population m)
  /\ length (schedule_agents m) = total_population m
  /\ total_population m <= 2 * 2
  /\ steps (schedule m) = 0 /\ time (schedule m) = 0
  /\ lockdown m = false /\ running m = true
  /\ dead_agents_number m = 0 /\ step_counter m = 0.
Proof.
  intros m.
  apply (constructor_numbers_agents sample_collaborators
           (sample_args 1.5 0.5 2 2) (constant_source 0.5) (constant_source 0.25)
           (@MainModel_init sample_collaborators (sample_args 1.5 0.5 2 2)
              (constant_source 0.5) (constant_source 0.25)).2).
  apply constructed_returns. vm_compute. reflexivity.
Defined.

Lemma not_below_zero (u : float) :
  PrimFloat.leb 0 u = true -> PrimFloat.ltb u 0 = false.
Proof.
  rewrite FloatAxioms.leb_spec, FloatAxioms.ltb_spec.
  change (Prim2SF 0) with (S754_zero false).
  destruct (Prim2SF u) as [s|s| |s mant ex]; try destruct s; cbn; congruence.
Qed.

(** X17. With population density 0 and a source that delivers no
    negative variate - as [random()] does - the construction cannot
    fail and builds an empty model: no agent, an empty schedule, the grid
    as created; it draws once per cell from the model's source and never
    from numpy's. *)
Theorem zero_density_builds_nobody (C : Collaborators) (a : Args) (rng np : Random) :
  arg_population_density a = 0%float ->
  (forall k, PrimFloat.leb 0 (variates rng k) = true) ->
  exists m,
    MainModel_init a rng np = (Return m, np)
    /\ total_population m = 0
    /\ agents m = ∅
    /\ schedule_agents m = []
    /\ grid m = SingleGrid_new (arg_width a) (arg_height a) true
    /\ random m = mkRandom (variates rng)
                    (consumed rng + Z.to_nat (arg_width a) * Z.to_nat (arg_height a)).
Proof.
  intros Hzero Hsource. unfold MainModel_init. cbv zeta.
  rewrite init_cells_nobody.
  2:{ intros k. cbn [b_random]. rewrite Hzero. apply not_below_zero, Hsource. }
  eexists. split; [reflexivity|].
  cbn [init_fields total_population agents grid random b_i b_agents b_grid
         b_random b_schedule].
  rewrite length_map, coord_iter_new_length. repeat split.
Qed.

Lemma zero_density_builds_nobody_witness :
  exists m,
    @MainModel_init sample_collaborators (sample_args 0 0.5 3 2)
      (constant_source 0.5) (constant_source 0.25)
    = (Return m, constant_source 0.25)
    /\ total_population m = 0
    /\ agents m = ∅
    /\ schedule_agents m = []
    /\ grid m = SingleGrid_new 3 2 true
    /\ random m = mkRandom (fun _ => 0.5%float) 6.
Proof.
  apply (zero_density_builds_nobody sample_collaborators (sample_args 0 0.5 3 2)
           (constant_source 0.5) (constant_source 0.25)).
  - reflexivity.
  - intros k. reflexivity.
Defined.

(** * The portrayal of an agent *)

(** X18. [draw] returns nothing for an empty cell and a portrayal for
    an agent.  The portrayal always has the circle shape; it has no
    colour exactly when the agent is Dead and not in quarantine - the
    colour reserved for the dead is never used - and the quarantine
    colour takes precedence over Infected and Dead, not over Clean or
    Recovered. *)
Theorem draw_colours (a : MainAgent) :
  draw None = None
  /\ exists portrayal,
       draw (Some a) = Some portrayal
       /\ portrayal !! "Shape" = Some (VStr "circle")
       /\ portrayal !! "r" = Some (VNum (PyFloat 0.5))
       /\ portrayal !! "Filled" = Some (VStr "true")
       /\ portrayal !! "Layer" = Some (VNum (PyInt 0))
       /\ (portrayal !! "Color" = None
           <-> infectionstate a = DEAD /\ quarantinestate a <> QUARANTINE)
       /\ portrayal !! "Color" <> Some (VStr dead_color)
       /\ (infectionstate a = CLEAN ->
           portrayal !! "Color" = Some (VStr clean_color))
       /\ (infectionstate a = RECOVERED ->
           portrayal !! "Color" = Some (VStr recovered_color))
       /\ (infectionstate a = INFECTED \/ infectionstate a = DEAD ->
           quarantinestate a = QUARANTINE ->
           portrayal !! "Color" = Some (VStr quarantine_color))
       /\ (infectionstate a = INFECTED -> quarantinestate a = FREE ->
           portrayal !! "Color" = Some (VStr infected_color)).
Proof.
  split; [reflexivity|]. eexists. split; [reflexivity|].
  destruct a as [uid p inf q t asp probs done]. cbn [infectionstate quarantinestate].
  destruct inf, q; cbn;
    repeat split; try reflexivity; try discriminate; try tauto;
    try (intros [? ?]; congruence); try (intros [?|?]; congruence);
    try (intros; congruence); try (intros [? ?]; discriminate).
Qed.

(** * The grid after construction *)

Lemma imap_contents {A B} (col : list A) :
  forall G : nat -> A -> A * B * B,
    (forall y c, fst (fst (G y c)) = c) ->
    map (fun c => fst (fst c)) (imap G col) = col.
Proof.
  induction col as [|c col IH]; intros G HG; [reflexivity|].
  rewrite imap_cons. cbn [map]. rewrite HG. f_equal. apply IH.
  intros y c'. apply HG.
Qed.

Lemma concat_imap_contents {A B} (cols : list (list A)) :
  forall F : nat -> list A -> list (A * B * B),
    (forall x col, map (fun c => fst (fst c)) (F x col) = col) ->
    map (fun c => fst (fst c)) (concat (imap F cols)) = concat cols.
Proof.
  induction cols as [|col cols IH]; intros F HF; [reflexivity|].
  rewrite imap_cons. cbn [concat]. rewrite map_app, HF. f_equal. apply IH.
  intros x c. apply HF.
Qed.

Lemma omap_map_id {A B} (f : A -> option B) (l : list A) :
  omap f l = omap id (map f l).
Proof.
  induction l as [|a l IH]; [reflexivity|].
  cbn [map]. rewrite !omap_step, IH. reflexivity.
Qed.

(** The references of a grid are those of its cells, column after
    column. *)
Lemma placed_cells (t : bool) (cols : list (list (option nat))) :
  placed (mkSingleGrid t cols) = omap id (concat cols).
Proof.
  unfold placed, coord_iter. cbn [cells]. rewrite omap_map_id. f_equal.
  apply concat_imap_contents. intros x col. apply imap_contents. reflexivity.
Qed.

Lemma omap_app' {A B} (f : A -> option B) (l k : list A) :
  omap f (l ++ k) = omap f l ++ omap f k.
Proof.
  induction l as [|a l IH]; [reflexivity|].
  cbn [app]. rewrite !omap_step, IH. destruct (f a); reflexivity.
Qed.

Lemma fill_column_some (r : nat) (col : list (option nat)) :
  forall y col',
    fill_column r col = Some (y, col') ->
    length col' = length col /\ omap id col' ≡ₚ r :: omap id col.
Proof.
  induction col as [|[r'|] col IH]; intros y col'; cbn [fill_column].
  - discriminate.
  - destruct (fill_column r col) as [[y' rest']|]; [|discriminate].
    intros [= <- <-]. destruct (IH y' rest' eq_refl) as [Hlen Hperm].
    split; [cbn [length]; lia|].
    rewrite !omap_step. cbn [id]. rewrite Hperm. apply Permutation_swap.
  - intros [= <- <-]. split; reflexivity.
Qed.

Lemma fill_column_none (r : nat) (col : list (option nat)) :
  fill_column r col = None -> length (omap id col) = length col.
Proof.
  induction col as [|[r'|] col IH]; cbn [fill_column]; [reflexivity| |discriminate].
  destruct (fill_column r col) as [[y' rest']|]; [discriminate|].
  intros _. rewrite omap_step. cbn [id length]. f_equal. apply IH. reflexivity.
Qed.

Lemma fill_columns_some (r : nat) (cols : list (list (option nat))) :
  forall x y cols',
    fill_columns r cols = Some (x, y, cols') ->
    length (concat cols') = length (concat cols)
    /\ omap id (concat cols') ≡ₚ r :: omap id (concat cols).
Proof.
  induction cols as [|col cols IH]; intros x y cols'; cbn [fill_columns].
  - discriminate.
  - destruct (fill_column r col) as [[y' col']|] eqn:Hcol.
    + intros [= <- <- <-]. apply fill_column_some in Hcol as [Hlen Hperm].
      cbn [concat]. rewrite !length_app, !omap_app', Hlen, Hperm.
      split; reflexivity.
    + destruct (fill_columns r cols) as [[[x' y''] rest']|]; [|discriminate].
      intros [= <- <- <-]. destruct (IH x' y'' rest' eq_refl) as [Hlen Hperm].
      cbn [concat]. rewrite !length_app, !omap_app', Hlen, Hperm.
      split; [reflexivity|].
      symmetry. apply Permutation_middle.
Qed.

Lemma fill_columns_none (r : nat) (cols : list (list (option nat))) :
  fill_columns r cols = None ->
  length (omap id (concat cols)) = length (concat cols).
Proof.
  induction cols as [|col cols IH]; cbn [fill_columns]; [reflexivity|].
  destruct (fill_column r col) as [[y' col']|] eqn:Hcol; [discriminate|].
  destruct (fill_columns r cols) as [[[x' y''] rest']|]; [discriminate|].
  intros _. cbn [concat]. rewrite omap_app', !length_app.
  rewrite (fill_column_none r col Hcol), IH; reflexivity.
Qed.

Lemma coord_iter_cells_length (t : bool) (cols : list (list (option nat))) :
  length (coord_iter (mkSingleGrid t cols)) = length (concat cols).
Proof. rewrite coord_iter_length, length_concat. reflexivity. Qed.

Lemma first_empty_places_on_free_cell :
  @places_on_free_cell first_empty_collaborators.
Proof.
  intros [t cols] r p rng. cbn [position_agent first_empty_collaborators].
  unfold place_on_first_empty. cbn [cells torus].
  rewrite placed_cells, coord_iter_cells_length. intros Hfree.
  destruct (fill_columns r cols) as [[[x y] cols']|] eqn:Hfill.
  - apply fill_columns_some in Hfill as [Hlen Hperm]. cbn [fst].
    rewrite placed_cells, coord_iter_cells_length. split; assumption.
  - apply fill_columns_none in Hfill. lia.
Qed.

Lemma omap_empty_column (k : nat) : omap id (replicate k (@None nat)) = [].
Proof.
  induction k as [|k IH]; [reflexivity|].
  cbn [replicate]. rewrite omap_step. exact IH.
Qed.

Lemma placed_new (w h : Z) (t : bool) : placed (SingleGrid_new w h t) = [].
Proof.
  unfold SingleGrid_new. rewrite placed_cells.
  induction (Z.to_nat w) as [|n IH]; [reflexivity|].
  cbn [replicate concat]. rewrite omap_app', IH, app_nil_r.
  apply omap_empty_column.
Qed.

Section GridAfterConstruction.

Context {C : Collaborators}.
Hypothesis Hplaces : places_on_free_cell.

Lemma init_cell_grid (a : Args) (x y : nat) (b b' : Building) (np np' : Random)
    (remaining : nat) :
  placed (b_grid b) ≡ₚ seq 0 (b_i b) ->
  b_i b + S remaining <= length (coord_iter (b_grid b)) ->
  init_cell a x y b np = (Return b', np') ->
  placed (b_grid b') ≡ₚ seq 0 (b_i b')
  /\ b_i b' + remaining <= length (coord_iter (b_grid b')).
Proof.
  intros Hperm Hroom. unfold init_cell.
  destruct (random_random (b_random b)) as [u rng].
  destruct (PrimFloat.ltb u (arg_population_density a)).
  - destruct (np_random_choice _ _ np) as [[c|e] n]; [|discriminate].
    assert (Hfree : length (placed (b_grid b)) < length (coord_iter (b_grid b)))
      by (rewrite Hperm, length_seq; lia).
    destruct (Hplaces (b_grid b) (b_i b) (x, y) rng Hfree) as [Hlen Hadd].
    destruct (position_agent (b_grid b) (b_i b) (x, y) rng) as [[g p] rng'].
    cbn [fst] in Hlen, Hadd.
    intros Hb. injection Hb as <- _. cbn [b_grid b_i]. split.
    + rewrite Hadd, Hperm, Nat.add_1_r, seq_S. cbn [Nat.add].
      apply Permutation_cons_append.
    + rewrite Hlen. lia.
  - intros Hb. injection Hb as <- _. cbn [b_grid b_i]. split; [exact Hperm | lia].
Qed.

Lemma init_cells_grid (a : Args) (coords : list (nat * nat)) :
  forall (b b' : Building) (np np' : Random),
    placed (b_grid b) ≡ₚ seq 0 (b_i b) ->
    b_i b + length coords <= length (coord_iter (b_grid b)) ->
    init_cells a coords b np = (Return b', np') ->
    placed (b_grid b') ≡ₚ seq 0 (b_i b').
Proof.
  induction coords as [|[x y] coords IH]; intros b b' np np' Hperm Hroom.
  - cbn [init_cells]. intros H. injection H as <- _. exact Hperm.
  - cbn [init_cells].
    destruct (init_cell a x y b np) as [[b1|e] n1] eqn:E; [|discriminate].
    destruct (init_cell_grid _ _ _ _ _ _ _ (length coords) Hperm Hroom E)
      as [Hperm1 Hroom1].
    apply IH; assumption.
Qed.

(** The grid and the schedule of a constructed model hold the same
    agents, each once. *)
Lemma init_grid_matches_schedule (a : Args) (rng np np' : Random) (m : MainModel) :
  MainModel_init a rng np = (Return m, np') ->
  grid_refs m ≡ₚ sched_agents (schedule m)
  /\ sched_agents (schedule m) = seq 0 (total_population m).
Proof.
  intros Hinit. apply init_returns in Hinit as (b & Hcells & ->).
  pose proof Hcells as Hnum.
  apply init_cells_numbering in Hnum as (Hsched & _); [|reflexivity|].
  2:{ cbn [b_agents b_i]. intros r. rewrite lookup_empty. split;
      [intros [? ?]; discriminate | lia]. }
  apply init_cells_grid in Hcells.
  - cbn [init_fields schedule total_population]. split; [|exact Hsched].
    rewrite Hsched. exact Hcells.
  - cbn [b_grid b_i]. rewrite placed_new. reflexivity.
  - cbn [b_grid b_i]. rewrite length_map. lia.
Qed.

End GridAfterConstruction.

(** X19. When [position_agent] puts each agent on a cell that was empty,
    the grid and the schedule of a constructed model hold the same
    agents, each exactly once, as many as [total_population]; so every
    state count read from the grid equals the one read from the
    schedule, and the termination test of [step] holds on it exactly
    when no agent is Infected and none was created Dead. *)
Theorem constructor_fills_grid_and_schedule_alike (C : Collaborators) :
  places_on_free_cell ->
  forall (a : Args) (rng np np' : Random) (m : MainModel),
    MainModel_init a rng np = (Return m, np') ->
    grid_refs m ≡ₚ sched_agents (schedule m)
    /\ NoDup (grid_refs m)
    /\ NoDup (sched_agents (schedule m))
    /\ length (grid_refs m) = total_population m
    /\ (forall s, count_grid s m = count_state s (schedule_agents m))
    /\ (MainModel_get_recovered_number m + MainModel_get_dead_number m
        + MainModel_get_susceptible_number m = total_population m
        <-> MainModel_get_infection_number m = 0 /\ count_grid DEAD m = 0).
Proof.
  intros Hplaces a rng np np' m Hinit.
  destruct (init_grid_matches_schedule Hplaces a rng np np' m Hinit) as [Hperm Hseq].
  assert (Hfacts := Hinit). apply init_returns in Hfacts as (b & _ & Hm).
  assert (Hdead : dead_agents_number m = 0) by (rewrite Hm; reflexivity).
  assert (Hnodup : NoDup (sched_agents (schedule m)))
    by (rewrite Hseq; apply NoDup_seq).
  assert (Hcount : forall s, count_grid s m = count_state s (schedule_agents m)).
  { intros s. rewrite count_grid_refs. unfold count_state, schedule_agents.
    rewrite Hperm. reflexivity. }
  assert (Hlen : length (grid_refs m) = total_population m)
    by (rewrite Hperm, Hseq, length_seq; reflexivity).
  split; [exact Hperm|]. split; [rewrite Hperm; exact Hnodup|].
  split; [exact Hnodup|]. split; [exact Hlen|]. split; [exact Hcount|].
  unfold MainModel_get_recovered_number, MainModel_get_dead_number,
    MainModel_get_susceptible_number, MainModel_get_infection_number.
  rewrite Hdead, !Hcount.
  pose proof (count_state_partition (schedule_agents m)) as Hpart.
  assert (Hall : length (schedule_agents m) = total_population m).
  { unfold schedule_agents. rewrite Hseq.
    apply init_returns in Hinit as (b' & Hcells & ->).
    apply init_cells_numbering in Hcells as (_ & Hstore & _); [|reflexivity|].
    2:{ cbn [b_agents b_i]. intros r. rewrite lookup_empty. split;
        [intros [? ?]; discriminate | lia]. }
    cbn [init_fields agents total_population].
    rewrite length_omap_all_some; [apply length_seq|].
    apply Forall_forall. intros r Hr. apply Hstore.
    apply elem_of_seq in Hr. lia. }
  lia.
Qed.

Lemma constructor_fills_grid_and_schedule_alike_witness :
  exists m,
    (@MainModel_init first_empty_collaborators (sample_args 1.5 0.5 2 2)
       (constant_source 0.5) (constant_source 0.25)).1 = Return m
    /\ grid_refs m ≡ₚ sched_agents (schedule m)
    /\ length (grid_refs m) = total_population m
    /\ total_population m = 4.
Proof.
  destruct (@MainModel_init first_empty_collaborators (sample_args 1.5 0.5 2 2)
              (constant_source 0.5) (constant_source 0.25)) as [[m|e] np'] eqn:Hinit.
  - exists m. split; [reflexivity|].
    destruct (constructor_fills_grid_and_schedule_alike first_empty_collaborators
                first_empty_places_on_free_cell _ _ _ _ _ Hinit)
      as (Hperm & _ & _ & Hlen & _).
    split; [exact Hperm|]. split; [exact Hlen|].
    apply (f_equal (fun r => match r.1 with
                             | Return m => total_population m
                             | Raise _ => 0
                             end)) in Hinit.
    vm_compute in Hinit. symmetry. exact Hinit.
  - apply (f_equal (fun r => is_Return r.1)) in Hinit.
    vm_compute in Hinit. discriminate.
Defined.

(** * When [step] returns *)

Lemma append_var_keys (var : string) (v : PyNum) (vars : list (string * list PyNum)) :
  map fst (append_var var v vars) = map fst vars.
Proof.
  unfold append_var. rewrite map_map. apply map_ext.
  intros [k c]. cbn [fst snd]. destruct (String.eqb k var); reflexivity.
Qed.

(** X20. A collection never adds, removes or renames a column, whether
    it returns or raises: a collector created by [__init__] keeps its
    ten columns for ever. *)
Theorem collect_keeps_columns (m : MainModel) (dc : DataCollector) :
  map fst (model_vars (DataCollector_collect m dc).2) = map fst (model_vars dc).
Proof.
  unfold DataCollector_collect.
  assert (Hloop : forall reps vars,
             map fst (collect_model_vars reps m vars).2 = map fst vars).
  { induction reps as [|[k r] reps IH]; intros vars; [reflexivity|].
    cbn [collect_model_vars]. destruct (r m) as [v|e]; [|reflexivity].
    rewrite IH. apply append_var_keys. }
  specialize (Hloop model_reporters (model_vars dc)).
  destruct (collect_model_vars model_reporters m (model_vars dc)) as [[[]|e] vars];
    exact Hloop.
Qed.

Lemma collect_model_vars_returns (m : MainModel)
    (reps : list (string * (MainModel -> Res PyNum))) (vals : list PyNum) :
  Forall2 (fun rep v => snd rep m = Return v) reps vals ->
  forall vars, (collect_model_vars reps m vars).1 = Return tt.
Proof.
  induction 1 as [|[k r] v reps vals Hv _ IH]; intros vars; [reflexivity|].
  cbn [collect_model_vars]. cbn [snd] in Hv. rewrite Hv. apply IH.
Qed.

Lemma four_probabilities (l : list MainAgent) :
  Forall (fun a => forall k, k ∈ four_actions -> is_Some (action_prob a !! k)) l ->
  (exists ps, Forall2 (fun a p => action_prob a !! "Stay In" = Some p) l ps)
  /\ (exists ps, Forall2 (fun a p => go_out_prob a = Return p) l ps).
Proof.
  induction 1 as [|a l Ha _ [[ps1 IH1] [ps2 IH2]]].
  - split; exists []; constructor.
  - destruct (Ha "Stay In") as [p1 Hp1]; [unfold four_actions; set_solver|].
    destruct (Ha "Party") as [p2 Hp2]; [unfold four_actions; set_solver|].
    destruct (Ha "Help elderly") as [p3 Hp3]; [unfold four_actions; set_solver|].
    destruct (Ha "Buy grocery") as [p4 Hp4]; [unfold four_actions; set_solver|].
    split.
    + exists (p1 :: ps1). constructor; assumption.
    + exists ((p2 + p3 + p4)%float :: ps2). constructor; [|assumption].
      unfold go_out_prob, getitem. rewrite Hp2, Hp3, Hp4. reflexivity.
Qed.

Lemma sum_over_last_index_returns (values : list PyNum) :
  2 <= length values -> exists v, sum_over_last_index values = Return v.
Proof.
  intros Hlen. unfold sum_over_last_index.
  destruct (length values) as [|[|k]]; [lia | lia | eauto].
Qed.

(** X21. [step] returns when at least two agents are scheduled, each
    holding a probability for the four actions, the population recorded
    at construction is not 0, and the scheduler pass returns and leaves
    that record alone. *)
Theorem step_returns_on_populated_model (C : Collaborators) (w : World) :
  2 <= length (schedule_agents (model w)) ->
  Forall (fun a => forall k, k ∈ four_actions -> is_Some (action_prob a !! k))
         (schedule_agents (model w)) ->
  total_population (model w) <> 0 ->
  (forall w0, (schedule_step w0).1 = Return tt
              /\ total_population (model (schedule_step w0).2)
                 = total_population (model w0)) ->
  (step w).1 = Return tt.
Proof.
  intros Hsize Hprobs Htotal Hpass.
  rewrite step_unfold. unfold update_self. cbn [snd].
  unfold collect. cbn [model np_random].
  set (m1 := set_step_counter (step_counter (model w) + 1) (model w)).
  destruct (four_probabilities _ Hprobs) as [[ps1 Hps1] [ps2 Hps2]].
  destruct (sum_over_last_index_returns (map PyFloat ps1)) as [s Hs].
  { rewrite length_map, <- (Forall2_length _ _ _ Hps1). exact Hsize. }
  destruct (sum_over_last_index_returns (map PyFloat ps2)) as [g Hg].
  { rewrite length_map, <- (Forall2_length _ _ _ Hps2). exact Hsize. }
  assert (Hstay : get_average_stay_in m1 = Return s).
  { rewrite get_average_stay_in_loop.
    rewrite (collectM_all_return _ _ ps1); [exact Hs|].
    eapply Forall2_impl; [exact Hps1|].
    intros a p Hp. unfold getitem. rewrite Hp. reflexivity. }
  assert (Hout : get_average_go_out m1 = Return g).
  { rewrite get_average_go_out_loop.
    rewrite (collectM_all_return _ _ ps2); [exact Hs || exact Hg | exact Hps2]. }
  destruct (first_reporters_return m1) as (vals & _ & Hvals).
  assert (Hall : Forall2 (fun rep v => snd rep m1 = Return v) model_reporters
                   (vals ++ [s; g])).
  { change model_reporters
      with (take 8 model_reporters
            ++ [("Average Stay In", get_average_stay_in);
                ("Average Get Out", get_average_go_out)]).
    apply Forall2_app; [exact Hvals|].
    repeat match goal with |- Forall2 _ _ _ => constructor end; assumption. }
  pose proof (collect_model_vars_returns m1 _ _ Hall
                (model_vars (datacollector m1))) as Hcollect.
  unfold DataCollector_collect.
  destruct (collect_model_vars model_reporters m1 _) as [r vars].
  cbn [fst] in Hcollect. subst r.
  match goal with
  | |- context [schedule_step ?w2] =>
      destruct (Hpass w2) as [Hret Hkeep]; destruct (schedule_step w2) as [r3 w3]
  end.
  cbn [fst snd model] in Hret, Hkeep. subst r3.
  unfold py_truediv, py_is_zero. rewrite Hkeep.
  change (total_population (set_datacollector _ m1)) with (total_population (model w)).
  destruct (Z.eqb_spec (Z.of_nat (total_population (model w))) 0) as [Hz|_]; [lia|].
  reflexivity.
Qed.

Lemma step_returns_on_populated_model_witness :
  (@step sample_collaborators (sample_world two_agent_model)).1 = Return tt.
Proof.
  apply (step_returns_on_populated_model sample_collaborators
           (sample_world two_agent_model)).
  - vm_compute. lia.
  - apply Forall_forall. intros a Ha k Hk.
    assert (Hagents : Forall (fun a => forall k, k ∈ four_actions ->
                                is_Some (action_prob a !! k))
                        (schedule_agents two_agent_model)).
    { vm_compute schedule_agents.
      repeat constructor; intros k' Hk';
        unfold four_actions in Hk';
        repeat (apply elem_of_cons in Hk' as [->|Hk']; [vm_compute; eauto|]);
        apply elem_of_nil in Hk'; contradiction. }
    rewrite Forall_forall in Hagents. exact (Hagents a Ha k Hk).
  - vm_compute. discriminate.
  - intros w0. split; reflexivity.
Defined.

Lemma draw_colours_witness :
  let infected := seed_infection 0 (spec_MainAgent_new 0 (sample_args 1 1 1 1) (0, 0)) in
  (exists portrayal,
     draw (Some (quarantined infected)) = Some portrayal
     /\ portrayal !! "Color" = Some (VStr quarantine_color))
  /\ (exists portrayal,
        draw (Some infected) = Some portrayal
        /\ portrayal !! "Color" = Some (VStr infected_color)).
Proof.
  intros infected. split.
  - destruct (draw_colours (quarantined infected))
      as (_ & portrayal & Hdraw & _ & _ & _ & _ & _ & _ & _ & _ & Hq & _).
    exists portrayal. split; [exact Hdraw|].
    apply Hq; [left; reflexivity | reflexivity].
  - destruct (draw_colours infected)
      as (_ & portrayal & Hdraw & _ & _ & _ & _ & _ & _ & _ & _ & _ & Hi).
    exists portrayal. split; [exact Hdraw|].
    apply Hi; reflexivity.
Defined.
